(** * geo_to_hca.utils.sra_utils: requests to the NCBI SRA database and eutils

    A shallow embedding of [geo_to_hca/utils/sra_utils.py].  Python values
    decoded from JSON are an inductive type, exceptions are an inductive type,
    and the functions of the module run in a small state-and-exception monad
    whose state holds the network, the store of [xml.etree] elements and the
    log of the effects performed so far ([sleep] and HTTP requests). *)

From Stdlib Require Import ZArith QArith Ascii Bool Lia.
From stdpp Require Import base strings list gmap.

Local Open Scope Z_scope.
Set Warnings "-register-all".

(** ** Python values *)

(** The values [Response.json()] can produce.  A [JDict] lists its items in
    insertion order, which is the order of [dict.values()]; the decoder
    leaves one item per key.  Every JSON number behaves alike in this module
    (it is never iterated, subscripted or searched without a [TypeError]),
    so an integer payload is enough. *)
Inductive json : Type :=
| JNull                                   (* None *)
| JBool (b : bool)
| JNum (n : Z)
| JStr (s : string)
| JList (l : list json)
| JDict (d : list (string * json)).

(** An HTTP response as the module reads it: [status_code] and [content]. *)
Record response : Type := mkResponse {
  status_code : Z;
  content : string
}.

(** The second argument of [NotFoundSRA]: a list of accessions for the run and
    accession requests, one string for the bioproject and pubmed requests. *)
Inductive accessions_arg : Type :=
| AccList (l : list string)
| AccStr (s : string).

(** Modelled from the spec: [NotFoundSRA], which is declared in
    [geo_to_hca.utils.handle_errors] and not in this module, is a typed error
    that carries the raw response and the requested accession(s), the two
    arguments it is raised with.  The other constructors are the exceptions
    of Python and of the libraries that this module can meet;
    [FailedSRP acc e] is the
    [Exception(f'Failed to get SRP accessions for {geo_accession}: {e}')]
    of [get_srp_accession_from_geo]. *)
Inductive exn : Type :=
| AssertionError (msg : string)
| UnboundLocalError (name : string)
| TypeError
| AttributeError (attr : string)
| KeyError (key : string)
| HTTPError (status : Z)                  (* Response.raise_for_status *)
| TransportError (msg : string)           (* raised by the transport itself *)
| JSONDecodeError
| XMLParseError
| CSVParserError
| NotFoundSRA (r : response) (accessions : accessions_arg)
| FailedSRP (geo_accession : string) (e : exn).

(** What evaluating a Python expression or call gives. *)
Inductive outcome (A : Type) : Type :=
| Return (a : A)
| Raise (e : exn).
Arguments Return {A} a.
Arguments Raise {A} e.

Definition is_dict (x : json) : bool :=
  match x with JDict _ => true | _ => false end.

(** [d.get(key, default)] on the items of a dict. *)
Fixpoint dict_get (d : list (string * json)) (key : string) (default : json) : json :=
  match d with
  | [] => default
  | (k, v) :: d' => if String.eqb k key then v else dict_get d' key default
  end.

Fixpoint dict_has (d : list (string * json)) (key : string) : bool :=
  match d with
  | [] => false
  | (k, _) :: d' => String.eqb k key || dict_has d' key
  end.

(** [x[key]] with a string key: only a dict accepts it. *)
Definition py_getitem (x : json) (key : string) : outcome json :=
  match x with
  | JDict d => if dict_has d key then Return (dict_get d key JNull) else Raise (KeyError key)
  | _ => Raise TypeError
  end.

(** [x.get(key, default)]: only a dict has the method. *)
Definition py_get (x : json) (key : string) (default : json) : outcome json :=
  match x with
  | JDict d => Return (dict_get d key default)
  | _ => Raise (AttributeError "get")
  end.

(** [x.values()] *)
Definition py_values (x : json) : outcome (list json) :=
  match x with
  | JDict d => Return (map snd d)
  | _ => Raise (AttributeError "values")
  end.

Fixpoint chars (s : string) : list json :=
  match s with
  | EmptyString => []
  | String c s' => JStr (String c EmptyString) :: chars s'
  end.

(** [iter(x)] drained: a list gives its elements, a string its characters, a
    dict its keys; nothing else is iterable. *)
Definition py_iter (x : json) : outcome (list json) :=
  match x with
  | JList l => Return l
  | JStr s => Return (chars s)
  | JDict d => Return (map (fun kv => JStr (fst kv)) d)
  | _ => Raise TypeError
  end.

Fixpoint str_contains (needle hay : string) : bool :=
  String.prefix needle hay ||
  match hay with
  | EmptyString => false
  | String _ hay' => str_contains needle hay'
  end.

Definition eq_str (s : string) (x : json) : bool :=
  match x with JStr t => String.eqb s t | _ => false end.

(** [needle in x] for a string [needle]: substring test on a string,
    membership on a list, key test on a dict, [TypeError] otherwise. *)
Definition py_str_in (needle : string) (x : json) : outcome bool :=
  match x with
  | JStr s => Return (str_contains needle s)
  | JList l => Return (existsb (eq_str needle) l)
  | JDict d => Return (dict_has d needle)
  | _ => Raise TypeError
  end.

(** [sep.join(l)] *)
Fixpoint join (sep : string) (l : list string) : string :=
  match l with
  | [] => ""
  | [x] => x
  | x :: l' => x +:+ sep +:+ join sep l'
  end.

(** ** The regular expressions of [re] that the module uses *)

Module Re.

Inductive item : Type :=
| Bol                      (* ^ *)
| Lit (c : ascii)          (* a literal character *)
| DotStar                  (* .* : greedy, [.] is any character but a line feed *)
| Eol.                     (* $ : the end, or just before a final line feed *)

Definition LF : ascii := ascii_of_nat 10.

Definition at_end (s : string) : bool :=
  match s with
  | EmptyString => true
  | String c EmptyString => Ascii.eqb c LF
  | _ => false
  end.

(** [matches p start s]: pattern [p] matches a prefix of [s]; [start] tells
    whether [s] begins at position 0 of the subject.  [.*] tries the longest
    run first and backtracks. *)
Fixpoint matches (p : list item) (start : bool) (s : string) : bool :=
  match p with
  | [] => true
  | Bol :: p' => start && matches p' start s
  | Eol :: p' => at_end s && matches p' start s
  | Lit c :: p' =>
      match s with
      | String c' s' => Ascii.eqb c c' && matches p' false s'
      | EmptyString => false
      end
  | DotStar :: p' =>
      (fix star (start : bool) (s : string) : bool :=
         match s with
         | String c s' =>
             (if Ascii.eqb c LF then false else star false s') || matches p' start s
         | EmptyString => matches p' start s
         end) start s
  end.

(** [re.compile(p).match(s)] is not None *)
Definition re_match (p : list item) (s : string) : bool := matches p true s.

End Re.

(** ** [xml.etree.ElementTree] elements *)

(** Elements are mutable objects with an identity: an [Element] is a reference
    into a store of nodes, and the children of a node are references too, so
    that what [findall] returns are the children themselves, not copies. *)
Module ElementTree.

Definition Element : Type := nat.

Record node : Type := mkNode {
  tag : string;
  attrib : list (string * string);
  text : string;
  children : list Element
}.

Abbreviation store := (gmap nat node).

Definition has_tag (h : store) (name : string) (e : Element) : bool :=
  match h !! e with
  | Some nd => String.eqb (tag nd) name
  | None => false
  end.

(** [e.findall(name)] for a plain tag name: the immediate children of [e]
    with that tag, in document order.  [None] when [e] is not in the store,
    which a reference obtained from the parser never is. *)
Definition findall (h : store) (e : Element) (name : string) : option (list Element) :=
  match h !! e with
  | Some nd => Some (List.filter (has_tag h name) (children nd))
  | None => None
  end.

End ElementTree.

Import ElementTree.

(** ** The outside world *)

(** [requests.get(url, params=...)] *)
Record request : Type := mkRequest {
  url : string;
  params : list (string * json)
}.

(** What the module does not define but calls: the HTTP transport behind
    [requests.get], the JSON decoder behind [Response.json], the parser
    behind [xm.fromstring] (which allocates the elements it returns), and,
    behind [pd.read_csv] on a URL, the opening of the URL and the parser of
    delimited text.  [net] is whatever state the network has. *)
Class Provider : Type := mkProvider {
  net : Type;
  dataframe : Type;
  http_get : request -> net -> outcome response * net;
  json_loads : string -> outcome json;
  fromstring : string -> store -> outcome Element * store;
  urlopen : string -> net -> outcome string * net;
  csv_parse : string -> outcome dataframe
}.

(** The effects a call leaves behind, oldest first. *)
Inductive event : Type :=
| EvSleep (seconds : Q)
| EvGet (rq : request)
| EvUrlopen (u : string).

Record world `{Provider} : Type := mkWorld {
  net_state : net;
  heap : store;
  trace : list event
}.

(** ** The monad of the module's functions *)

Definition M `{Provider} (A : Type) : Type := world -> outcome A * world.

Definition ret `{Provider} {A} (a : A) : M A := fun w => (Return a, w).

Definition raise `{Provider} {A} (e : exn) : M A := fun w => (Raise e, w).

Definition bind `{Provider} {A B} (m : M A) (k : A -> M B) : M B :=
  fun w =>
    match m w with
    | (Return a, w') => k a w'
    | (Raise e, w') => (Raise e, w')
    end.

(** [try: m  except ... as e: handler e] *)
Definition try_except `{Provider} {A} (m : M A) (handler : exn -> M A) : M A :=
  fun w =>
    match m w with
    | (Return a, w') => (Return a, w')
    | (Raise e, w') => handler e w'
    end.

Definition lift `{Provider} {A} (o : outcome A) : M A := fun w => (o, w).

Definition log `{Provider} (ev : event) (w : world) : world :=
  {| net_state := net_state w; heap := heap w; trace := trace w ++ [ev] |}.

Declare Scope py_scope.
Delimit Scope py_scope with py.
Notation "x <- m ;; k" := (bind m (fun x => k))
  (at level 100, m at next level, right associativity) : py_scope.
Notation "m ;;; k" := (bind m (fun _ => k))
  (at level 100, right associativity) : py_scope.
Local Open Scope py_scope.

(** [time.sleep(seconds)] *)
Definition sleep `{Provider} (seconds : Q) : M unit :=
  fun w => (Return tt, log (EvSleep seconds) w).

(** [requests.get(url, params=params)] *)
Definition requests_get `{Provider} (u : string) (ps : list (string * json)) : M response :=
  fun w =>
    let rq := {| url := u; params := ps |} in
    let '(o, n) := http_get rq (net_state w) in
    (o, {| net_state := n; heap := heap w; trace := trace w ++ [EvGet rq] |}).

(** [r.raise_for_status()]: [HTTPError] for 4xx and 5xx. *)
Definition raise_for_status `{Provider} (r : response) : M unit :=
  if (400 <=? status_code r) && (status_code r <? 600)
  then raise (HTTPError (status_code r))
  else ret tt.

(** [r.json()] *)
Definition response_json `{Provider} (r : response) : M json :=
  lift (json_loads (content r)).

(** [xm.fromstring(content)] *)
Definition xm_fromstring `{Provider} (c : string) : M Element :=
  fun w =>
    let '(o, h) := fromstring c (heap w) in
    (o, {| net_state := net_state w; heap := h; trace := trace w |}).

(** [pd.read_csv(url)]: opens the URL, then parses the body as delimited
    text; either step can raise. *)
Definition pd_read_csv `{Provider} (u : string) : M dataframe :=
  body <- (fun w =>
             let '(o, n) := urlopen u (net_state w) in
             (o, {| net_state := n; heap := heap w; trace := trace w ++ [EvUrlopen u] |})) ;;
  lift (csv_parse body).

(** A [for] loop whose body may [return]: the body gives [Some v] for
    [return v] and [None] when it runs to its end; the loop gives [None]
    when the iterable is exhausted. *)
Fixpoint for_each `{Provider} {A R} (xs : list A) (body : A -> M (option R)) : M (option R) :=
  match xs with
  | [] => ret None
  | x :: xs' =>
      r <- body x ;;
      match r with
      | Some v => ret (Some v)
      | None => for_each xs' body
      end
  end.

(** Sequencing of pure steps that may raise. *)
Definition obind {A B} (o : outcome A) (k : A -> outcome B) : outcome B :=
  match o with
  | Return a => k a
  | Raise e => Raise e
  end.

(** [[f x for x in xs]], left to right, stopping at the first exception. *)
Fixpoint omap {A B} (f : A -> outcome B) (xs : list A) : outcome (list B) :=
  match xs with
  | [] => Return []
  | x :: xs' => obind (f x) (fun y => obind (omap f xs') (fun ys => Return (y :: ys)))
  end.

(** ** sra_utils *)

Definition STATUS_ERROR_CODE : Z := 400.

(** [re.compile('^GSE.*$')] *)
Definition geo_regex : list Re.item :=
  [Re.Bol; Re.Lit "G"; Re.Lit "S"; Re.Lit "E"; Re.DotStar; Re.Eol].

Definition default_params : list (string * json) :=
  [("db", JStr "gds"); ("retmode", JStr "json")].

Definition esearch_url : string :=
  "https://eutils.ncbi.nlm.nih.gov/entrez/eutils/esearch.fcgi".

Definition esummary_url : string :=
  "https://eutils.ncbi.nlm.nih.gov/entrez/eutils/esummary.fcgi".

(** [[x['targetobject'] for x in extrelations
      if 'SRP' in x.get('targetobject', '')]] *)
Fixpoint srp_targets (extrelations : list json) : outcome (list json) :=
  match extrelations with
  | [] => Return []
  | x :: rest =>
      obind (py_get x "targetobject" (JStr "")) (fun t =>
      obind (py_str_in "SRP" t) (fun keep =>
      if keep : bool
      then obind (py_getitem x "targetobject") (fun v =>
           obind (srp_targets rest) (fun vs => Return (v :: vs)))
      else srp_targets rest))
  end.

(** Lines 48-50, on the decoded summary [payload = r.json()]. *)
Definition summary_targets (payload : json) : outcome (list json) :=
  obind (py_getitem payload "result") (fun res =>
  obind (py_values res) (fun vals =>
  let results := List.filter is_dict vals in
  obind (omap (fun x => py_get x "extrelations" JNull) results) (fun rels =>
  obind (omap py_iter rels) (fun nested =>
  let extrelations := concat nested in
  srp_targets extrelations)))).

(** The body of the [for] loop, lines 44-50: it ends in [return]. *)
Definition summary_step `{Provider} (summary_id : json) : M (option (list json)) :=
  r <- requests_get esummary_url (default_params ++ [("id", summary_id)]) ;;
  raise_for_status r ;;;
  payload <- response_json r ;;
  targets <- lift (summary_targets payload) ;;
  ret (Some targets).

(** The [try] block, lines 34-50. *)
Definition srp_lookup `{Provider} (geo_accession : string) : M (option (list json)) :=
  r <- requests_get esearch_url (default_params ++ [("term", JStr geo_accession)]) ;;
  raise_for_status r ;;;
  payload <- response_json r ;;
  idlist <- lift (obind (py_getitem payload "esearchresult")
                        (fun er => py_getitem er "idlist")) ;;
  ids <- lift (py_iter idlist) ;;
  for_each ids summary_step.

(** The result is [None] for Python's [None], which a call that falls off
    the end of the function returns. *)
Definition get_srp_accession_from_geo `{Provider} (geo_accession : string)
  : M (option (list json)) :=
  if negb (Re.re_match geo_regex geo_accession)
  then raise (AssertionError (geo_accession +:+ " is not a valid GEO accession"))
  else try_except (srp_lookup geo_accession)
                  (fun e => raise (FailedSRP geo_accession e)).

Definition run_info_url (srp_accession : string) : string :=
  "http://trace.ncbi.nlm.nih.gov/Traces/sra/sra.cgi?save=efetch&db=sra&rettype=runinfo&term="
  +:+ srp_accession.

Definition get_srp_metadata `{Provider} (srp_accession : string) : M dataframe :=
  sleep (1 # 2) ;;;
  let srp_metadata_url := run_info_url srp_accession in
  pd_read_csv srp_metadata_url.

(** A generator object of [parse_xml_SRA_runs]: created and not yet started,
    suspended at the [yield] with the rest of the [findall] list pending, or
    finished. *)
Inductive generator : Type :=
| GenCreated (xml_content : option Element)
| GenSuspended (pending : list Element)
| GenFinished.

(** Calling the generator function runs none of its body. *)
Definition parse_xml_SRA_runs (xml_content : option Element) : generator :=
  GenCreated xml_content.

(** The [for] loop of the body, up to the next [yield]. *)
Definition gen_resume (pending : list Element) : outcome (option Element) * generator :=
  match pending with
  | [] => (Return None, GenFinished)
  | experiment_package :: rest => (Return (Some experiment_package), GenSuspended rest)
  end.

(** [next(g)]: [Return (Some e)] when [e] is yielded, [Return None] for
    [StopIteration].  The store is threaded through and given back.  [None]
    and a reference outside the store have no [findall]. *)
Definition gen_next (g : generator) (h : store)
  : (outcome (option Element) * generator) * store :=
  match g with
  | GenCreated None => ((Raise (AttributeError "findall"), GenFinished), h)
  | GenCreated (Some xml_content) =>
      match findall h xml_content "EXPERIMENT_PACKAGE" with
      | Some l => (gen_resume l, h)
      | None => ((Raise (AttributeError "findall"), GenFinished), h)
      end
  | GenSuspended pending => (gen_resume pending, h)
  | GenFinished => ((Return None, GenFinished), h)
  end.

(** [list(g)]: [next] until [StopIteration], at most [fuel] times. *)
Fixpoint gen_list (fuel : nat) (g : generator) (h : store)
  : option (outcome (list Element) * store) :=
  match fuel with
  | O => None
  | S fuel' =>
      match gen_next g h with
      | ((Raise e, _), h') => Some (Raise e, h')
      | ((Return None, _), h') => Some (Return [], h')
      | ((Return (Some x), g'), h') =>
          match gen_list fuel' g' h' with
          | Some (Return xs, h'') => Some (Return (x :: xs), h'')
          | other => other
          end
      end
  end.

Definition efetch_sra_url (ids : string) : string :=
  "https://eutils.ncbi.nlm.nih.gov/entrez/eutils/efetch/fcgi?db=sra&id=" +:+ ids.

Definition efetch_biosample_url (ids : string) : string :=
  "https://eutils.ncbi.nlm.nih.gov/entrez/eutils/efetch/fcgi?db=biosample&id=" +:+ ids.

Definition efetch_bioproject_url (id : string) : string :=
  "https://eutils.ncbi.nlm.nih.gov/entrez/eutils/efetch/fcgi?db=bioproject&id=" +:+ id.

Definition efetch_pubmed_url (id : string) : string :=
  "https://eutils.ncbi.nlm.nih.gov/entrez/eutils/efetch/fcgi?db=pubmed&id=" +:+ id
  +:+ "&rettype=xml".

(** The result is [None] for Python's [None]. *)
Definition request_fastq_from_SRA `{Provider} (srr_accessions : list string)
  : M (option Element) :=
  sleep (1 # 2) ;;;
  let url := efetch_sra_url (join "," srr_accessions) in
  srr_metadata_url <- requests_get url [] ;;
  if status_code srr_metadata_url =? STATUS_ERROR_CODE
  then raise (NotFoundSRA srr_metadata_url (AccList srr_accessions))
  else
    xml_content <- try_except
                     (x <- xm_fromstring (content srr_metadata_url) ;; ret (Some x))
                     (fun _ => ret None) ;;
    ret xml_content.

(** The local [url] is bound by neither [if] when [accession_type] is
    something else; reading it then raises [UnboundLocalError]. *)
Definition request_accession_info `{Provider} (accessions : list string)
  (accession_type : string) : M Element :=
  let url : option string := None in
  let url :=
    if String.eqb accession_type "biosample"
    then Some (efetch_biosample_url (join "," accessions)) else url in
  let url :=
    if String.eqb accession_type "experiment"
    then Some (efetch_sra_url (join "," accessions)) else url in
  match url with
  | None => raise (UnboundLocalError "url")
  | Some url =>
      sra_url <- requests_get url [] ;;
      if status_code sra_url =? STATUS_ERROR_CODE
      then raise (NotFoundSRA sra_url (AccList accessions))
      else xm_fromstring (content sra_url)
  end.

Definition request_bioproject_metadata `{Provider} (bioproject_accession : string)
  : M Element :=
  sleep (1 # 2) ;;;
  srp_bioproject_url <- requests_get (efetch_bioproject_url bioproject_accession) [] ;;
  if status_code srp_bioproject_url =? STATUS_ERROR_CODE
  then raise (NotFoundSRA srp_bioproject_url (AccStr bioproject_accession))
  else xm_fromstring (content srp_bioproject_url).

Definition request_pubmed_metadata `{Provider} (project_pubmed_id : string)
  : M Element :=
  sleep (1 # 2) ;;;
  pubmed_url <- requests_get (efetch_pubmed_url project_pubmed_id) [] ;;
  if status_code pubmed_url =? STATUS_ERROR_CODE
  then raise (NotFoundSRA pubmed_url (AccStr project_pubmed_id))
  else xm_fromstring (content pubmed_url).

(** ** Reading the effect log *)

Definition start `{Provider} (n : net) (h : store) : world :=
  {| net_state := n; heap := h; trace := [] |}.

Definition is_call (ev : event) : bool :=
  match ev with
  | EvGet _ | EvUrlopen _ => true
  | EvSleep _ => false
  end.

Definition is_pause (ev : event) : bool :=
  match ev with
  | EvSleep d => Qeq_bool d (1 # 2)
  | _ => false
  end.

(** Every network call of the log comes right after a [sleep(0.5)]. *)
Fixpoint paced_after (prev : option event) (tr : list event) : bool :=
  match tr with
  | [] => true
  | ev :: tr' =>
      (if is_call ev
       then match prev with Some p => is_pause p | None => false end
       else true)
      && paced_after (Some ev) tr'
  end.

Definition paced (tr : list event) : bool := paced_after None tr.

(** The pattern [^GSE] of the specification. *)
Definition gse_prefix_regex : list Re.item :=
  [Re.Bol; Re.Lit "G"; Re.Lit "S"; Re.Lit "E"].

(** No line feed in [s], except possibly as its last character. *)
Fixpoint one_line (s : string) : bool :=
  match s with
  | EmptyString => true
  | String c s' =>
      if Ascii.eqb c Re.LF
      then match s' with EmptyString => true | _ => false end
      else one_line s'
  end.

Definition esearch_request (geo_accession : string) : request :=
  {| url := esearch_url; params := default_params ++ [("term", JStr geo_accession)] |}.

Definition esummary_request (summary_id : json) : request :=
  {| url := esummary_url; params := default_params ++ [("id", summary_id)] |}.

Definition efetch_request (u : string) : request := {| url := u; params := [] |}.

(** [raise_for_status] lets the response through. *)
Definition status_ok (r : response) : bool :=
  negb ((400 <=? status_code r) && (status_code r <? 600)).

(** ** A stub provider *)

Module Stub.

(** The query string of a request whose parameters are strings. *)
Fixpoint query (ps : list (string * json)) : string :=
  match ps with
  | [] => ""
  | (k, v) :: ps' =>
      (k +:+ "=" +:+ match v with JStr s => s | _ => "" end)
      +:+ match ps' with [] => "" | _ => "&" +:+ query ps' end
  end.

Definition full_url (rq : request) : string :=
  match params rq with
  | [] => url rq
  | ps => url rq +:+ "?" +:+ query ps
  end.

Fixpoint assoc {A} (tbl : list (string * A)) (k : string) (default : A) : A :=
  match tbl with
  | [] => default
  | (k', a) :: tbl' => if String.eqb k' k then a else assoc tbl' k default
  end.

Definition pages : list (string * outcome response) :=
  [ (esearch_url +:+ "?db=gds&retmode=json&term=GSE12345", Return (mkResponse 200 "search-hits"));
    (esearch_url +:+ "?db=gds&retmode=json&term=GSE00000", Return (mkResponse 200 "search-empty"));
    (esummary_url +:+ "?db=gds&retmode=json&id=200012345", Return (mkResponse 200 "summary-12345"));
    (efetch_sra_url "SRR000001", Return (mkResponse 400 "<ERROR>no such id</ERROR>"));
    (efetch_sra_url "SRR000002", Return (mkResponse 200 ""));
    (efetch_sra_url "SRR000003", Return (mkResponse 500 "<EXPERIMENT_PACKAGE_SET/>"));
    (efetch_sra_url "SRR000004,SRR000005", Return (mkResponse 200 "<EXPERIMENT_PACKAGE_SET/>"));
    (efetch_sra_url "SRX000001", Return (mkResponse 400 "<ERROR>no such id</ERROR>"));
    (efetch_sra_url "SRX000002", Return (mkResponse 200 ""));
    (efetch_biosample_url "SAMN00000001", Return (mkResponse 200 "<BioSampleSet/>"));
    (efetch_biosample_url "SAMN00000002", Return (mkResponse 400 "<ERROR>no such id</ERROR>"));
    (efetch_biosample_url "SAMN00000003", Return (mkResponse 500 "<BioSampleSet/>"));
    (efetch_bioproject_url "PRJNA000001", Return (mkResponse 400 "<ERROR>no such id</ERROR>"));
    (efetch_bioproject_url "PRJNA000002", Return (mkResponse 503 "<RecordSet/>"));
    (efetch_pubmed_url "30000001", Return (mkResponse 400 "<ERROR>no such id</ERROR>"));
    (efetch_pubmed_url "30000002", Return (mkResponse 502 "<PubmedArticleSet/>")) ].

Definition serve (rq : request) : outcome response :=
  assoc pages (full_url rq) (Raise (TransportError "connection refused")).

Definition search_hits : json :=
  JDict [("header", JDict [("type", JStr "esearch")]);
         ("esearchresult",
          JDict [("count", JStr "2");
                 ("idlist", JList [JStr "200012345"; JStr "200054321"])])].

Definition search_empty : json :=
  JDict [("header", JDict [("type", JStr "esearch")]);
         ("esearchresult", JDict [("count", JStr "0"); ("idlist", JList [])])].

Definition summary_12345 : json :=
  JDict [("header", JDict [("type", JStr "esummary")]);
         ("result",
          JDict [("uids", JList [JStr "200012345"]);
                 ("200012345",
                  JDict [("accession", JStr "GSE12345");
                         ("extrelations",
                          JList [JDict [("relationtype", JStr "SRA");
                                        ("targetobject", JStr "SRP000001")];
                                 JDict [("relationtype", JStr "BioProject");
                                        ("targetobject", JStr "PRJNA000001")]])])])].

Definition decode (body : string) : outcome json :=
  assoc [("search-hits", Return search_hits);
         ("search-empty", Return search_empty);
         ("summary-12345", Return summary_12345)]
        body (Raise JSONDecodeError).

(** The parser of the stub: an empty body is no document; any other body is
    a document whose root has the body as its tag and no children, allocated
    at the first free reference. *)
Definition parse (c : string) (h : store) : outcome Element * store :=
  if String.eqb c "" then (Raise XMLParseError, h)
  else
    let e := fresh (dom h) in
    (Return e, <[e := mkNode c [] "" []]> h).

Definition tables : list (string * outcome string) :=
  [ (run_info_url "SRP000001", Return "Run,spots");
    (run_info_url "SRP000002", Raise (TransportError "HTTP Error 500"));
    (run_info_url "SRP000003", Return "") ].

Definition open_url (u : string) : outcome string :=
  assoc tables u (Raise (TransportError "connection refused")).

Definition parse_table (body : string) : outcome (list string) :=
  if String.eqb body "" then Raise CSVParserError else Return [body].

(** The state of the stub network counts the requests served. *)
Definition provider : Provider :=
  {| net := nat;
     dataframe := list string;
     http_get := fun rq n => (serve rq, S n);
     json_loads := decode;
     fromstring := parse;
     urlopen := fun u n => (open_url u, S n);
     csv_parse := parse_table |}.

(** A document with three experiment packages among the children of its
    root, and one nested deeper. *)
Definition packages : store :=
  list_to_map
    [ (0%nat, mkNode "EXPERIMENT_PACKAGE_SET" [] "" [1; 2; 3; 4]%nat);
      (1%nat, mkNode "EXPERIMENT_PACKAGE" [] "" [5]%nat);
      (2%nat, mkNode "Summary" [] "" []);
      (3%nat, mkNode "EXPERIMENT_PACKAGE" [] "" []);
      (4%nat, mkNode "EXPERIMENT_PACKAGE" [] "" []);
      (5%nat, mkNode "EXPERIMENT_PACKAGE" [] "" []) ].

End Stub.

(** The effect log only grows under [m]. *)
Definition grows `{Provider} {A} (m : M A) : Prop :=
  forall w, exists tr, trace (snd (m w)) = trace w ++ tr.

(** How many of the references [l] have the tag [name]. *)
Fixpoint count_tagged (h : store) (name : string) (l : list Element) : nat :=
  match l with
  | [] => 0
  | e :: l' => (if has_tag h name e then 1 else 0) + count_tagged h name l'
  end.

(** ** Inputs of the examples *)

(** The world the examples start from: the stub network before any request,
    an empty store, an empty log. *)
Definition stub_world : @world Stub.provider := @start Stub.provider 0%nat ∅.

(** A string that begins with GSE and goes on after a line feed. *)
Definition two_line_accession : string := "GSE1" +:+ String Re.LF "X".

(** The answer of the stub to an unknown id. *)
Definition not_found_response : response := mkResponse 400 "<ERROR>no such id</ERROR>".

(** ** Further vocabulary and inputs *)

(** The value [v] passes the test ['SRP' in v] of line 50. *)
Definition mentions_srp (v : json) : Prop := py_str_in "SRP" v = Return true.

(** What the call of [get_srp_accession_from_geo] leaves in the log beyond
    what was there. *)
Inductive geo_requests (geo_accession : string) : list event -> Prop :=
| geo_no_request : geo_requests geo_accession []
| geo_search_only : geo_requests geo_accession [EvGet (esearch_request geo_accession)]
| geo_search_and_summary (summary_id : json) :
    geo_requests geo_accession
      [EvGet (esearch_request geo_accession); EvGet (esummary_request summary_id)].

(** A second stub, whose provider fails in the ways the search and summary
    requests can fail. *)
Module Faulty.

Definition pages : list (string * outcome response) :=
  [ (esearch_url +:+ "?db=gds&retmode=json&term=GSE50000", Return (mkResponse 503 "busy"));
    (esearch_url +:+ "?db=gds&retmode=json&term=GSE40000", Return (mkResponse 200 "<html>"));
    (esearch_url +:+ "?db=gds&retmode=json&term=GSE30000", Return (mkResponse 200 "no-result"));
    (esearch_url +:+ "?db=gds&retmode=json&term=GSE30001", Return (mkResponse 200 "no-idlist"));
    (esearch_url +:+ "?db=gds&retmode=json&term=GSE30002", Return (mkResponse 200 "null-idlist"));
    (esearch_url +:+ "?db=gds&retmode=json&term=GSE20000", Return (mkResponse 200 "two-hits"));
    (esummary_url +:+ "?db=gds&retmode=json&id=200020000", Return (mkResponse 429 "slow down")) ].

Definition serve (rq : request) : outcome response :=
  Stub.assoc pages (Stub.full_url rq) (Raise (TransportError "connection refused")).

Definition decode (body : string) : outcome json :=
  Stub.assoc
    [("no-result", Return (JDict [("error", JStr "temporarily unavailable")]));
     ("no-idlist", Return (JDict [("esearchresult", JDict [("count", JStr "0")])]));
     ("null-idlist", Return (JDict [("esearchresult", JDict [("idlist", JNull)])]));
     ("two-hits",
      Return (JDict [("esearchresult",
                      JDict [("idlist", JList [JStr "200020000"; JStr "200020001"])])]))]
    body (Raise JSONDecodeError).

Definition provider : Provider :=
  {| net := nat;
     dataframe := list string;
     http_get := fun rq n => (serve rq, S n);
     json_loads := decode;
     fromstring := Stub.parse;
     urlopen := fun u n => (Raise (TransportError "connection refused"), S n);
     csv_parse := Stub.parse_table |}.

Definition world0 : @world provider := @start provider 0%nat ∅.

(** A summary payload whose second record has no extrelations. *)
Definition summary_without_relations : json :=
  JDict [("result",
          JDict [("uids", JList [JStr "1"; JStr "2"]);
                 ("1", JDict [("extrelations",
                               JList [JDict [("targetobject", JStr "SRP000009")]])]);
                 ("2", JDict [("accession", JStr "GSE2")])])].

(** Relations as esummary lists them: two SRA studies among other targets,
    one relation without a target. *)
Definition relations : list json :=
  [ JDict [("relationtype", JStr "SRA"); ("targetobject", JStr "SRP000001")];
    JDict [("relationtype", JStr "BioProject"); ("targetobject", JStr "PRJNA000001")];
    JDict [("relationtype", JStr "SRA")];
    JDict [("relationtype", JStr "SRA"); ("targetobject", JStr "ftp://sra/SRP000002")] ].

End Faulty.

(** * Properties *)

(** ** The GEO pattern *)

Lemma dotstar_eol (b : bool) (s : string) :
  Re.matches [Re.DotStar; Re.Eol] b s = one_line s.
Proof.
  revert b. induction s as [| c s IH]; intros b.
  - reflexivity.
  - specialize (IH false). cbn in IH |- *.
    destruct (Ascii.eqb c Re.LF) eqn:Hc.
    + destruct s; reflexivity.
    + rewrite IH. destruct s; cbn; rewrite ?orb_false_r; reflexivity.
Qed.

Lemma matches_bol (p : list Re.item) (s : string) :
  Re.matches (Re.Bol :: p) true s = Re.matches p true s.
Proof. reflexivity. Qed.

Lemma matches_lit_cons (c c' : ascii) (p : list Re.item) (b : bool) (s : string) :
  Re.matches (Re.Lit c :: p) b (String c' s) = Ascii.eqb c c' && Re.matches p false s.
Proof. reflexivity. Qed.

Lemma matches_lit_nil (c : ascii) (p : list Re.item) (b : bool) :
  Re.matches (Re.Lit c :: p) b EmptyString = false.
Proof. reflexivity. Qed.

Lemma matches_gse (p : list Re.item) (s : string) :
  Re.matches (Re.Bol :: Re.Lit "G" :: Re.Lit "S" :: Re.Lit "E" :: p) true s = true <->
  exists tail, s = "GSE" +:+ tail /\ Re.matches p false tail = true.
Proof.
  rewrite matches_bol. split.
  - destruct s as [| c1 [| c2 [| c3 tail]]];
      rewrite ?matches_lit_cons, ?matches_lit_nil, ?andb_false_r; try discriminate.
    rewrite !andb_true_iff. intros (H1 & H2 & H3 & H4).
    apply Ascii.eqb_eq in H1, H2, H3. subst. exists tail. split; [reflexivity | exact H4].
  - intros (tail & -> & Ht).
    change ("GSE" +:+ tail) with (String "G" (String "S" (String "E" tail))).
    rewrite !matches_lit_cons, Ht, !Ascii.eqb_refl. reflexivity.
Qed.

Lemma gse_prefix_regex_spec (s : string) :
  Re.re_match gse_prefix_regex s = true <-> exists tail, s = "GSE" +:+ tail.
Proof.
  unfold Re.re_match, gse_prefix_regex. rewrite matches_gse. split.
  - intros (tail & -> & _). eauto.
  - intros (tail & ->). eauto.
Qed.

Lemma geo_regex_spec (s : string) :
  Re.re_match geo_regex s = true <->
  exists tail, s = "GSE" +:+ tail /\ one_line tail = true.
Proof.
  unfold Re.re_match, geo_regex. rewrite matches_gse.
  split; intros (tail & -> & Ht); exists tail; split; try reflexivity;
    rewrite dotstar_eol in *; exact Ht.
Qed.

Lemma geo_regex_needs_prefix (s : string) :
  Re.re_match gse_prefix_regex s = false -> Re.re_match geo_regex s = false.
Proof.
  intros Hp. destruct (Re.re_match geo_regex s) eqn:Hm; [| reflexivity].
  apply geo_regex_spec in Hm as (tail & -> & _).
  assert (Re.re_match gse_prefix_regex ("GSE" +:+ tail) = true) as Ht
    by (apply gse_prefix_regex_spec; eauto).
  congruence.
Qed.

(** ** The effect log only grows *)

Lemma grows_ret `{Provider} {A} (a : A) : grows (ret a).
Proof. intros w. exists []. cbn. by rewrite app_nil_r. Qed.

Lemma grows_raise `{Provider} {A} (e : exn) : grows (raise (A:=A) e).
Proof. intros w. exists []. cbn. by rewrite app_nil_r. Qed.

Lemma grows_lift `{Provider} {A} (o : outcome A) : grows (lift o).
Proof. intros w. exists []. cbn. by rewrite app_nil_r. Qed.

Lemma grows_bind `{Provider} {A B} (m : M A) (k : A -> M B) :
  grows m -> (forall a, grows (k a)) -> grows (bind m k).
Proof.
  intros Hm Hk w. unfold bind. destruct (Hm w) as [tr1 H1].
  destruct (m w) as [[a | e] w1]; cbn in H1.
  - destruct (Hk a w1) as [tr2 H2]. exists (tr1 ++ tr2).
    rewrite H2, H1. by rewrite app_assoc.
  - exists tr1. exact H1.
Qed.

Lemma grows_try_except `{Provider} {A} (m : M A) (handler : exn -> M A) :
  grows m -> (forall e, grows (handler e)) -> grows (try_except m handler).
Proof.
  intros Hm Hh w. unfold try_except. destruct (Hm w) as [tr1 H1].
  destruct (m w) as [[a | e] w1]; cbn in H1.
  - exists tr1. exact H1.
  - destruct (Hh e w1) as [tr2 H2]. exists (tr1 ++ tr2).
    rewrite H2, H1. by rewrite app_assoc.
Qed.

Lemma grows_requests_get `{Provider} (u : string) (ps : list (string * json)) :
  grows (requests_get u ps).
Proof.
  intros w. unfold requests_get. destruct (http_get _ _) as [o n].
  eexists. reflexivity.
Qed.

Lemma grows_raise_for_status `{Provider} (r : response) : grows (raise_for_status r).
Proof.
  unfold raise_for_status. destruct (_ && _); [apply grows_raise | apply grows_ret].
Qed.

Lemma grows_for_each `{Provider} {A R} (xs : list A) (body : A -> M (option R)) :
  (forall x, grows (body x)) -> grows (for_each xs body).
Proof.
  intros Hb. induction xs as [| x xs IH]; cbn.
  - apply grows_ret.
  - apply grows_bind; [apply Hb |]. intros [v |]; [apply grows_ret | exact IH].
Qed.

Lemma grows_summary_step `{Provider} (summary_id : json) : grows (summary_step summary_id).
Proof.
  unfold summary_step, response_json.
  repeat first
    [ apply grows_bind; [| intros ?]
    | apply grows_requests_get | apply grows_raise_for_status
    | apply grows_lift | apply grows_ret ].
Qed.

(** The search request is the first effect of the [try] block. *)
Lemma srp_lookup_first_event `{Provider} (geo_accession : string) (w : world) :
  exists tr,
    trace (snd (srp_lookup geo_accession w))
    = trace w ++ EvGet (esearch_request geo_accession) :: tr.
Proof.
  unfold srp_lookup.
  set (rest := fun r : response => bind (raise_for_status r) _).
  assert (forall r, grows (rest r)) as Hrest.
  { intros r. unfold rest, response_json.
    repeat first
      [ apply grows_summary_step
      | apply grows_for_each; intros ?
      | apply grows_raise_for_status
      | apply grows_lift | apply grows_ret
      | apply grows_bind; [| intros ?] ]. }
  unfold bind at 1. unfold requests_get.
  destruct (http_get _ _) as [[r | e] n] eqn:Hget.
  - destruct (Hrest r {| net_state := n; heap := heap w;
                         trace := trace w ++ [EvGet (esearch_request geo_accession)] |})
      as [tr Htr].
    exists tr. unfold esearch_request in *. rewrite Htr. cbn.
    by rewrite <- app_assoc.
  - exists []. reflexivity.
Qed.

(** ** Resolving a GEO accession *)

Ltac unfold_monad :=
  unfold try_except, bind, requests_get, raise_for_status, response_json,
    xm_fromstring, sleep, log, lift, ret, raise in *.

Lemma status_ok_false (r : response) :
  status_ok r = true -> (400 <=? status_code r) && (status_code r <? 600) = false.
Proof. unfold status_ok. by intros ->%negb_true_iff. Qed.

(** The loop body never runs to its end: it returns or raises. *)
Lemma summary_step_returns `{Provider} (summary_id : json) (w w' : world)
    (o : option (list json)) :
  summary_step summary_id w = (Return o, w') -> exists targets, o = Some targets.
Proof.
  unfold summary_step. unfold_monad.
  destruct (http_get _ _) as [[r | e] n]; [| discriminate].
  destruct (_ && _); [discriminate |].
  destruct (json_loads _) as [payload | e]; [| discriminate].
  destruct (summary_targets _) as [targets | e]; [| discriminate].
  intros [= <- _]. eauto.
Qed.

(** Whatever its outcome, the loop body issues one request: the summary
    request for its id. *)
Lemma summary_step_trace `{Provider} (summary_id : json) (w : world) :
  trace (snd (summary_step summary_id w))
  = trace w ++ [EvGet (esummary_request summary_id)].
Proof.
  unfold summary_step. unfold_monad.
  destruct (http_get _ _) as [[r | e] n]; [| reflexivity].
  destruct (_ && _); [reflexivity |].
  destruct (json_loads _) as [payload | e]; [| reflexivity].
  destruct (summary_targets _) as [targets | e]; reflexivity.
Qed.

Lemma summary_step_ok `{Provider} (summary_id : json) (w : world)
    (r : response) (n : net) (payload : json) (targets : list json) :
  http_get (esummary_request summary_id) (net_state w) = (Return r, n) ->
  status_ok r = true ->
  json_loads (content r) = Return payload ->
  summary_targets payload = Return targets ->
  summary_step summary_id w
  = (Return (Some targets),
     {| net_state := n; heap := heap w;
        trace := trace w ++ [EvGet (esummary_request summary_id)] |}).
Proof.
  intros Hget Hok%status_ok_false Hjson Htargets.
  unfold summary_step, esummary_request in *. unfold_monad.
  rewrite Hget, Hok. cbn. rewrite Hjson, Htargets. reflexivity.
Qed.

(** Up to the loop: a search that answers with the items [ids]. *)
Lemma srp_lookup_ids `{Provider} (geo_accession : string) (w : world)
    (r : response) (n : net) (payload er idlist : json) (ids : list json) :
  http_get (esearch_request geo_accession) (net_state w) = (Return r, n) ->
  status_ok r = true ->
  json_loads (content r) = Return payload ->
  py_getitem payload "esearchresult" = Return er ->
  py_getitem er "idlist" = Return idlist ->
  py_iter idlist = Return ids ->
  srp_lookup geo_accession w
  = for_each ids summary_step
      {| net_state := n; heap := heap w;
         trace := trace w ++ [EvGet (esearch_request geo_accession)] |}.
Proof.
  intros Hget Hok%status_ok_false Hjson Her Hidlist Hids.
  unfold srp_lookup, esearch_request in *. unfold_monad.
  rewrite Hget, Hok. cbn. rewrite Hjson, Her. cbn. rewrite Hidlist, Hids.
  reflexivity.
Qed.

(** C1: when the search answers with a non-empty id list, the call is decided
    by the summary of the first id alone: its outcome is that of the loop body
    on the first id (with an exception wrapped by the handler), the only
    requests issued are the search and that one summary, and when the summary
    is processed without exception the call returns exactly the SRP targets
    collected from it.  The remaining ids play no part. *)
Theorem geo_returns_after_first_summary `{Provider}
    (geo_accession : string) (w : world) (r : response) (n : net)
    (payload er : json) (summary_id : json) (remaining : list json) :
  Re.re_match geo_regex geo_accession = true ->
  http_get (esearch_request geo_accession) (net_state w) = (Return r, n) ->
  status_ok r = true ->
  json_loads (content r) = Return payload ->
  py_getitem payload "esearchresult" = Return er ->
  py_getitem er "idlist" = Return (JList (summary_id :: remaining)) ->
  let w1 := {| net_state := n; heap := heap w;
               trace := trace w ++ [EvGet (esearch_request geo_accession)] |} in
  get_srp_accession_from_geo geo_accession w
  = try_except (summary_step summary_id)
               (fun e => raise (FailedSRP geo_accession e)) w1
  /\ trace (snd (get_srp_accession_from_geo geo_accession w))
     = trace w ++ [EvGet (esearch_request geo_accession);
                   EvGet (esummary_request summary_id)]
  /\ forall (r2 : response) (n2 : net) (summary : json) (targets : list json),
       http_get (esummary_request summary_id) n = (Return r2, n2) ->
       status_ok r2 = true ->
       json_loads (content r2) = Return summary ->
       summary_targets summary = Return targets ->
       get_srp_accession_from_geo geo_accession w
       = (Return (Some targets),
          {| net_state := n2; heap := heap w;
             trace := trace w ++ [EvGet (esearch_request geo_accession);
                                  EvGet (esummary_request summary_id)] |}).
Proof.
  intros Hre Hget Hok Hjson Her Hidlist w1.
  assert (get_srp_accession_from_geo geo_accession w
          = try_except (summary_step summary_id)
                       (fun e => raise (FailedSRP geo_accession e)) w1) as Hfirst.
  { unfold get_srp_accession_from_geo. rewrite Hre. cbn [negb].
    unfold try_except at 1.
    rewrite (srp_lookup_ids geo_accession w r n payload er _ _
               Hget Hok Hjson Her Hidlist eq_refl).
    fold w1. cbn [for_each]. unfold try_except, bind.
    destruct (summary_step summary_id w1) as [[[targets |] | e] w2] eqn:Hstep;
      try reflexivity.
    apply summary_step_returns in Hstep as [? [=]]. }
  split; [exact Hfirst |]. split.
  - rewrite Hfirst. unfold try_except.
    pose proof (summary_step_trace summary_id w1) as Htr.
    destruct (summary_step summary_id w1) as [[o | e] w2]; cbn in Htr |- *;
      rewrite Htr; subst w1; cbn; by rewrite <- app_assoc.
  - intros r2 n2 summary targets Hget2 Hok2 Hjson2 Htargets.
    rewrite Hfirst. unfold try_except.
    rewrite (summary_step_ok summary_id w1 r2 n2 summary targets
               Hget2 Hok2 Hjson2 Htargets).
    subst w1. cbn. by rewrite <- app_assoc.
Qed.

(** C9: when the id list of the search response is empty the loop body never
    runs and the call returns [None], neither an empty list nor an
    exception, after the search request alone. *)
Theorem geo_empty_idlist_returns_none `{Provider}
    (geo_accession : string) (w : world) (r : response) (n : net)
    (payload er : json) :
  Re.re_match geo_regex geo_accession = true ->
  http_get (esearch_request geo_accession) (net_state w) = (Return r, n) ->
  status_ok r = true ->
  json_loads (content r) = Return payload ->
  py_getitem payload "esearchresult" = Return er ->
  py_getitem er "idlist" = Return (JList []) ->
  get_srp_accession_from_geo geo_accession w
  = (Return None,
     {| net_state := n; heap := heap w;
        trace := trace w ++ [EvGet (esearch_request geo_accession)] |}).
Proof.
  intros Hre Hget Hok Hjson Her Hidlist.
  unfold get_srp_accession_from_geo. rewrite Hre. cbn [negb].
  unfold try_except.
  rewrite (srp_lookup_ids geo_accession w r n payload er _ _
             Hget Hok Hjson Her Hidlist eq_refl).
  reflexivity.
Qed.

Lemma geo_returns_after_first_summary_witness :
  @get_srp_accession_from_geo Stub.provider "GSE12345" stub_world
  = (Return (Some [JStr "SRP000001"]),
     @mkWorld Stub.provider 2%nat ∅
       ([] ++ [EvGet (esearch_request "GSE12345");
               EvGet (esummary_request (JStr "200012345"))])).
Proof.
  refine (proj2 (proj2
    (@geo_returns_after_first_summary Stub.provider "GSE12345" stub_world
       (mkResponse 200 "search-hits") 1%nat Stub.search_hits
       (JDict [("count", JStr "2");
               ("idlist", JList [JStr "200012345"; JStr "200054321"])])
       (JStr "200012345") [JStr "200054321"]
       eq_refl eq_refl eq_refl eq_refl eq_refl eq_refl))
    (mkResponse 200 "summary-12345") 2%nat Stub.summary_12345 [JStr "SRP000001"]
    eq_refl eq_refl eq_refl eq_refl).
Defined.

Lemma geo_empty_idlist_returns_none_witness :
  @get_srp_accession_from_geo Stub.provider "GSE00000" stub_world
  = (Return None,
     @mkWorld Stub.provider 1%nat ∅ ([] ++ [EvGet (esearch_request "GSE00000")])).
Proof.
  exact (@geo_empty_idlist_returns_none Stub.provider "GSE00000" stub_world
           (mkResponse 200 "search-empty") 1%nat Stub.search_empty
           (JDict [("count", JStr "0"); ("idlist", JList [])])
           eq_refl eq_refl eq_refl eq_refl eq_refl eq_refl).
Defined.

(** ** Validation of the GEO accession *)

(** C5 as stated fails: a string can match [^GSE] and still be refused, since
    the pattern of the code is [^GSE.*$]. *)
Lemma gse_prefix_is_not_enough :
  Re.re_match gse_prefix_regex two_line_accession = true
  /\ @get_srp_accession_from_geo Stub.provider two_line_accession stub_world
     = (Raise (AssertionError (two_line_accession +:+ " is not a valid GEO accession")),
        stub_world).
Proof. split; reflexivity. Qed.

(** C5 (amended): a string that does not match [^GSE.*$] under [re.match]
    (in particular every string that does not match [^GSE]) is refused with
    [AssertionError] before any request is issued; a string that matches
    [^GSE.*$] passes validation, the call goes on into the [try] block and
    its first effect is the search request.  The strings matching [^GSE.*$]
    are those that start with GSE and hold no line feed afterwards other
    than as their last character. *)
Theorem geo_accession_validation `{Provider} (geo_accession : string) (w : world) :
  (Re.re_match gse_prefix_regex geo_accession = false ->
   get_srp_accession_from_geo geo_accession w
   = (Raise (AssertionError (geo_accession +:+ " is not a valid GEO accession")), w))
  /\ (Re.re_match geo_regex geo_accession = false ->
      get_srp_accession_from_geo geo_accession w
      = (Raise (AssertionError (geo_accession +:+ " is not a valid GEO accession")), w))
  /\ (Re.re_match geo_regex geo_accession = true ->
      get_srp_accession_from_geo geo_accession w
      = try_except (srp_lookup geo_accession)
                   (fun e => raise (FailedSRP geo_accession e)) w
      /\ exists tr,
           trace (snd (get_srp_accession_from_geo geo_accession w))
           = trace w ++ EvGet (esearch_request geo_accession) :: tr)
  /\ (Re.re_match geo_regex geo_accession = true <->
      exists tail, geo_accession = "GSE" +:+ tail /\ one_line tail = true).
Proof.
  assert (Re.re_match geo_regex geo_accession = false ->
          get_srp_accession_from_geo geo_accession w
          = (Raise (AssertionError (geo_accession +:+ " is not a valid GEO accession")), w))
    as Hrefuse.
  { intros Hre. unfold get_srp_accession_from_geo. rewrite Hre. reflexivity. }
  split; [| split; [| split]].
  - intros Hp. apply Hrefuse, geo_regex_needs_prefix, Hp.
  - exact Hrefuse.
  - intros Hre. unfold get_srp_accession_from_geo. rewrite Hre. cbn [negb].
    split; [reflexivity |].
    destruct (srp_lookup_first_event geo_accession w) as [tr Htr].
    exists tr. unfold try_except, raise.
    destruct (srp_lookup geo_accession w) as [[o | e] w']; exact Htr.
  - apply geo_regex_spec.
Qed.

Lemma geo_accession_validation_witness :
  @get_srp_accession_from_geo Stub.provider "SRP000001" stub_world
  = (Raise (AssertionError "SRP000001 is not a valid GEO accession"), stub_world)
  /\ @get_srp_accession_from_geo Stub.provider "GSE12345" stub_world
     = try_except (srp_lookup "GSE12345") (fun e => raise (FailedSRP "GSE12345" e))
                  stub_world.
Proof.
  split.
  - exact (proj1 (@geo_accession_validation Stub.provider "SRP000001" stub_world) eq_refl).
  - exact (proj1 (proj1 (proj2 (proj2
      (@geo_accession_validation Stub.provider "GSE12345" stub_world))) eq_refl)).
Defined.

(** ** The kind of accession of [request_accession_info] *)

(** C10: for any accession list, an [accession_type] that is neither
    'biosample' nor 'experiment' leaves [url] unbound: the call raises
    [UnboundLocalError] and the world is as before, no request issued. *)
Theorem accession_info_unbound_url `{Provider}
    (accessions : list string) (accession_type : string) (w : world) :
  accession_type <> "biosample" ->
  accession_type <> "experiment" ->
  request_accession_info accessions accession_type w
  = (Raise (UnboundLocalError "url"), w).
Proof.
  intros Hb He. unfold request_accession_info.
  destruct (String.eqb_spec accession_type "biosample"); [contradiction |].
  destruct (String.eqb_spec accession_type "experiment"); [contradiction |].
  reflexivity.
Qed.

Lemma accession_info_unbound_url_witness :
  @request_accession_info Stub.provider ["SRR000001"] "run" stub_world
  = (Raise (UnboundLocalError "url"), stub_world).
Proof.
  apply (@accession_info_unbound_url Stub.provider ["SRR000001"] "run" stub_world);
    discriminate.
Defined.

(** ** The efetch requests *)

Ltac efetch_run Hget Hstatus :=
  unfold request_fastq_from_SRA, request_accession_info,
    request_bioproject_metadata, request_pubmed_metadata, efetch_request in *;
  unfold_monad; cbn in *; rewrite Hget; cbn; rewrite Hstatus; cbn.

(** C2: a response with status 400 makes each efetch operation raise
    [NotFoundSRA] with that very response and the accession(s) it was called
    with. *)
Theorem efetch_400_not_found `{Provider} (r : response) (w : world) (n : net) :
  status_code r = STATUS_ERROR_CODE ->
  (forall srr_accessions : list string,
     http_get (efetch_request (efetch_sra_url (join "," srr_accessions))) (net_state w)
     = (Return r, n) ->
     request_fastq_from_SRA srr_accessions w
     = (Raise (NotFoundSRA r (AccList srr_accessions)),
        {| net_state := n; heap := heap w;
           trace := (trace w ++ [EvSleep (1 # 2)])
                    ++ [EvGet (efetch_request (efetch_sra_url (join "," srr_accessions)))] |}))
  /\ (forall accessions : list string,
        http_get (efetch_request (efetch_biosample_url (join "," accessions))) (net_state w)
        = (Return r, n) ->
        request_accession_info accessions "biosample" w
        = (Raise (NotFoundSRA r (AccList accessions)),
           {| net_state := n; heap := heap w;
              trace := trace w
                       ++ [EvGet (efetch_request (efetch_biosample_url (join "," accessions)))] |}))
  /\ (forall accessions : list string,
        http_get (efetch_request (efetch_sra_url (join "," accessions))) (net_state w)
        = (Return r, n) ->
        request_accession_info accessions "experiment" w
        = (Raise (NotFoundSRA r (AccList accessions)),
           {| net_state := n; heap := heap w;
              trace := trace w
                       ++ [EvGet (efetch_request (efetch_sra_url (join "," accessions)))] |}))
  /\ (forall bioproject_accession : string,
        http_get (efetch_request (efetch_bioproject_url bioproject_accession)) (net_state w)
        = (Return r, n) ->
        request_bioproject_metadata bioproject_accession w
        = (Raise (NotFoundSRA r (AccStr bioproject_accession)),
           {| net_state := n; heap := heap w;
              trace := (trace w ++ [EvSleep (1 # 2)])
                       ++ [EvGet (efetch_request (efetch_bioproject_url bioproject_accession))] |}))
  /\ (forall project_pubmed_id : string,
        http_get (efetch_request (efetch_pubmed_url project_pubmed_id)) (net_state w)
        = (Return r, n) ->
        request_pubmed_metadata project_pubmed_id w
        = (Raise (NotFoundSRA r (AccStr project_pubmed_id)),
           {| net_state := n; heap := heap w;
              trace := (trace w ++ [EvSleep (1 # 2)])
                       ++ [EvGet (efetch_request (efetch_pubmed_url project_pubmed_id))] |})).
Proof.
  intros Hstatus%Z.eqb_eq.
  repeat split; intros a Hget; efetch_run Hget Hstatus; reflexivity.
Qed.

Lemma efetch_400_not_found_witness :
  fst (@request_fastq_from_SRA Stub.provider ["SRR000001"] stub_world)
  = Raise (NotFoundSRA not_found_response (AccList ["SRR000001"]))
  /\ fst (@request_accession_info Stub.provider ["SAMN00000002"] "biosample" stub_world)
     = Raise (NotFoundSRA not_found_response (AccList ["SAMN00000002"]))
  /\ fst (@request_accession_info Stub.provider ["SRX000001"] "experiment" stub_world)
     = Raise (NotFoundSRA not_found_response (AccList ["SRX000001"]))
  /\ fst (@request_bioproject_metadata Stub.provider "PRJNA000001" stub_world)
     = Raise (NotFoundSRA not_found_response (AccStr "PRJNA000001"))
  /\ fst (@request_pubmed_metadata Stub.provider "30000001" stub_world)
     = Raise (NotFoundSRA not_found_response (AccStr "30000001")).
Proof.
  destruct (@efetch_400_not_found Stub.provider not_found_response stub_world 1%nat eq_refl)
    as (Hrun & Hbiosample & Hexperiment & Hbioproject & Hpubmed).
  split; [| split; [| split; [| split]]].
  - rewrite (Hrun ["SRR000001"] eq_refl). reflexivity.
  - rewrite (Hbiosample ["SAMN00000002"] eq_refl). reflexivity.
  - rewrite (Hexperiment ["SRX000001"] eq_refl). reflexivity.
  - rewrite (Hbioproject "PRJNA000001" eq_refl). reflexivity.
  - rewrite (Hpubmed "30000001" eq_refl). reflexivity.
Defined.

(** C3: with a status other than 400 and a body the XML parser rejects,
    [request_fastq_from_SRA] returns [None] and raises nothing, while
    [request_accession_info] lets the parser's exception through. *)
Theorem xml_parse_failure_asymmetry `{Provider}
    (r : response) (w : world) (n : net) (e : exn) (h : store) :
  status_code r <> STATUS_ERROR_CODE ->
  fromstring (content r) (heap w) = (Raise e, h) ->
  (forall srr_accessions : list string,
     http_get (efetch_request (efetch_sra_url (join "," srr_accessions))) (net_state w)
     = (Return r, n) ->
     request_fastq_from_SRA srr_accessions w
     = (Return None,
        {| net_state := n; heap := h;
           trace := (trace w ++ [EvSleep (1 # 2)])
                    ++ [EvGet (efetch_request (efetch_sra_url (join "," srr_accessions)))] |}))
  /\ (forall accessions : list string,
        http_get (efetch_request (efetch_biosample_url (join "," accessions))) (net_state w)
        = (Return r, n) ->
        request_accession_info accessions "biosample" w
        = (Raise e,
           {| net_state := n; heap := h;
              trace := trace w
                       ++ [EvGet (efetch_request (efetch_biosample_url (join "," accessions)))] |}))
  /\ (forall accessions : list string,
        http_get (efetch_request (efetch_sra_url (join "," accessions))) (net_state w)
        = (Return r, n) ->
        request_accession_info accessions "experiment" w
        = (Raise e,
           {| net_state := n; heap := h;
              trace := trace w
                       ++ [EvGet (efetch_request (efetch_sra_url (join "," accessions)))] |})).
Proof.
  intros Hstatus%Z.eqb_neq Hparse.
  repeat split; intros a Hget; efetch_run Hget Hstatus; rewrite Hparse; reflexivity.
Qed.

Lemma xml_parse_failure_asymmetry_witness :
  fst (@request_fastq_from_SRA Stub.provider ["SRR000002"] stub_world) = Return None
  /\ fst (@request_accession_info Stub.provider ["SRX000002"] "experiment" stub_world)
     = Raise XMLParseError.
Proof.
  destruct (@xml_parse_failure_asymmetry Stub.provider (mkResponse 200 "") stub_world
              1%nat XMLParseError ∅ ltac:(discriminate) eq_refl)
    as (Hrun & _ & Hexperiment).
  split.
  - rewrite (Hrun ["SRR000002"] eq_refl). reflexivity.
  - rewrite (Hexperiment ["SRX000002"] eq_refl). reflexivity.
Defined.

(** C4 as stated fails: a 500 response raises nothing; its body goes to the
    parser and the parsed document is returned. *)
Lemma efetch_500_is_parsed :
  @http_get Stub.provider (efetch_request (efetch_sra_url "SRR000003")) 0%nat
  = (Return (mkResponse 500 "<EXPERIMENT_PACKAGE_SET/>"), 1%nat)
  /\ status_ok (mkResponse 500 "<EXPERIMENT_PACKAGE_SET/>") = false
  /\ fst (@request_fastq_from_SRA Stub.provider ["SRR000003"] stub_world)
     = Return (Some 0%nat)
  /\ heap (snd (@request_fastq_from_SRA Stub.provider ["SRR000003"] stub_world))
     !! 0%nat
     = Some (mkNode "<EXPERIMENT_PACKAGE_SET/>" [] "" []).
Proof. repeat split; vm_compute; reflexivity. Qed.

(** C4 (amended): for every efetch operation and every status other than
    400, a non-2xx one such as 500 included, no transport error is raised or
    wrapped: the body of the response goes to the XML parser and the
    operation ends as the parser does (with [None] in place of the parser's
    exception for [request_fastq_from_SRA]). *)
Theorem efetch_other_status_is_parsed `{Provider} (r : response) (w : world) (n : net) :
  status_code r <> STATUS_ERROR_CODE ->
  (forall srr_accessions : list string,
     http_get (efetch_request (efetch_sra_url (join "," srr_accessions))) (net_state w)
     = (Return r, n) ->
     request_fastq_from_SRA srr_accessions w
     = (match fst (fromstring (content r) (heap w)) with
        | Return x => Return (Some x)
        | Raise _ => Return None
        end,
        {| net_state := n; heap := snd (fromstring (content r) (heap w));
           trace := (trace w ++ [EvSleep (1 # 2)])
                    ++ [EvGet (efetch_request (efetch_sra_url (join "," srr_accessions)))] |}))
  /\ (forall accessions : list string,
        http_get (efetch_request (efetch_biosample_url (join "," accessions))) (net_state w)
        = (Return r, n) ->
        request_accession_info accessions "biosample" w
        = (fst (fromstring (content r) (heap w)),
           {| net_state := n; heap := snd (fromstring (content r) (heap w));
              trace := trace w
                       ++ [EvGet (efetch_request (efetch_biosample_url (join "," accessions)))] |}))
  /\ (forall accessions : list string,
        http_get (efetch_request (efetch_sra_url (join "," accessions))) (net_state w)
        = (Return r, n) ->
        request_accession_info accessions "experiment" w
        = (fst (fromstring (content r) (heap w)),
           {| net_state := n; heap := snd (fromstring (content r) (heap w));
              trace := trace w
                       ++ [EvGet (efetch_request (efetch_sra_url (join "," accessions)))] |}))
  /\ (forall bioproject_accession : string,
        http_get (efetch_request (efetch_bioproject_url bioproject_accession)) (net_state w)
        = (Return r, n) ->
        request_bioproject_metadata bioproject_accession w
        = (fst (fromstring (content r) (heap w)),
           {| net_state := n; heap := snd (fromstring (content r) (heap w));
              trace := (trace w ++ [EvSleep (1 # 2)])
                       ++ [EvGet (efetch_request (efetch_bioproject_url bioproject_accession))] |}))
  /\ (forall project_pubmed_id : string,
        http_get (efetch_request (efetch_pubmed_url project_pubmed_id)) (net_state w)
        = (Return r, n) ->
        request_pubmed_metadata project_pubmed_id w
        = (fst (fromstring (content r) (heap w)),
           {| net_state := n; heap := snd (fromstring (content r) (heap w));
              trace := (trace w ++ [EvSleep (1 # 2)])
                       ++ [EvGet (efetch_request (efetch_pubmed_url project_pubmed_id))] |})).
Proof.
  intros Hstatus%Z.eqb_neq.
  repeat split; intros a Hget; efetch_run Hget Hstatus;
    destruct (fromstring (content r) (heap w)) as [[x | e] h]; reflexivity.
Qed.

Lemma efetch_other_status_is_parsed_witness :
  fst (@request_fastq_from_SRA Stub.provider ["SRR000003"] stub_world)
  = Return (Some 0%nat)
  /\ fst (@request_accession_info Stub.provider ["SAMN00000003"] "biosample" stub_world)
     = Return 0%nat
  /\ fst (@request_bioproject_metadata Stub.provider "PRJNA000002" stub_world)
     = Return 0%nat
  /\ fst (@request_pubmed_metadata Stub.provider "30000002" stub_world)
     = Return 0%nat.
Proof.
  split; [| split; [| split]].
  - destruct (@efetch_other_status_is_parsed Stub.provider
                (mkResponse 500 "<EXPERIMENT_PACKAGE_SET/>") stub_world 1%nat
                ltac:(discriminate)) as (Hrun & _).
    rewrite (Hrun ["SRR000003"] eq_refl). reflexivity.
  - destruct (@efetch_other_status_is_parsed Stub.provider
                (mkResponse 500 "<BioSampleSet/>") stub_world 1%nat
                ltac:(discriminate)) as (_ & Hbiosample & _).
    rewrite (Hbiosample ["SAMN00000003"] eq_refl). reflexivity.
  - destruct (@efetch_other_status_is_parsed Stub.provider
                (mkResponse 503 "<RecordSet/>") stub_world 1%nat
                ltac:(discriminate)) as (_ & _ & _ & Hbioproject & _).
    rewrite (Hbioproject "PRJNA000002" eq_refl). reflexivity.
  - destruct (@efetch_other_status_is_parsed Stub.provider
                (mkResponse 502 "<PubmedArticleSet/>") stub_world 1%nat
                ltac:(discriminate)) as (_ & _ & _ & _ & Hpubmed).
    rewrite (Hpubmed "30000002" eq_refl). reflexivity.
Defined.

(** ** Pacing *)

(** C6 as stated fails: [request_accession_info] issues its request with no
    [sleep] before it. *)
Lemma accession_info_is_not_paced :
  trace (snd (@request_accession_info Stub.provider ["SAMN00000001"] "biosample" stub_world))
  = [EvGet (efetch_request (efetch_biosample_url "SAMN00000001"))]
  /\ paced (trace (snd (@request_accession_info Stub.provider ["SAMN00000001"]
                          "biosample" stub_world))) = false.
Proof. split; reflexivity. Qed.

(** C6 (amended): every network call made by [get_srp_metadata],
    [request_fastq_from_SRA], [request_bioproject_metadata] and
    [request_pubmed_metadata] comes right after a [sleep(0.5)]: whatever the
    outcome, each of them adds to the log exactly the pause and then its one
    call. *)
Theorem paced_requests `{Provider} (w : world) :
  (forall srp_accession : string,
     trace (snd (get_srp_metadata srp_accession w))
     = trace w ++ [EvSleep (1 # 2); EvUrlopen (run_info_url srp_accession)])
  /\ (forall srr_accessions : list string,
        trace (snd (request_fastq_from_SRA srr_accessions w))
        = trace w ++ [EvSleep (1 # 2);
                      EvGet (efetch_request (efetch_sra_url (join "," srr_accessions)))])
  /\ (forall bioproject_accession : string,
        trace (snd (request_bioproject_metadata bioproject_accession w))
        = trace w ++ [EvSleep (1 # 2);
                      EvGet (efetch_request (efetch_bioproject_url bioproject_accession))])
  /\ (forall project_pubmed_id : string,
        trace (snd (request_pubmed_metadata project_pubmed_id w))
        = trace w ++ [EvSleep (1 # 2);
                      EvGet (efetch_request (efetch_pubmed_url project_pubmed_id))])
  /\ (forall call : event,
        is_call call = true ->
        paced (trace w) = true ->
        paced (trace w ++ [EvSleep (1 # 2); call]) = true).
Proof.
  split; [| split; [| split; [| split]]].
  - intros a. unfold get_srp_metadata, pd_read_csv. unfold_monad. cbn.
    destruct (urlopen _ _) as [[body | e] n]; cbn; [destruct (csv_parse body) |];
      by rewrite <- app_assoc.
  - intros a. unfold request_fastq_from_SRA, efetch_request. unfold_monad. cbn.
    destruct (http_get _ _) as [[r | e] n]; cbn; [| by rewrite <- app_assoc].
    destruct (status_code r =? STATUS_ERROR_CODE); cbn; [by rewrite <- app_assoc |].
    destruct (fromstring _ _) as [[x | e] h]; cbn; by rewrite <- app_assoc.
  - intros a. unfold request_bioproject_metadata, efetch_request. unfold_monad. cbn.
    destruct (http_get _ _) as [[r | e] n]; cbn; [| by rewrite <- app_assoc].
    destruct (status_code r =? STATUS_ERROR_CODE); cbn; [by rewrite <- app_assoc |].
    destruct (fromstring _ _) as [[x | e] h]; cbn; by rewrite <- app_assoc.
  - intros a. unfold request_pubmed_metadata, efetch_request. unfold_monad. cbn.
    destruct (http_get _ _) as [[r | e] n]; cbn; [| by rewrite <- app_assoc].
    destruct (status_code r =? STATUS_ERROR_CODE); cbn; [by rewrite <- app_assoc |].
    destruct (fromstring _ _) as [[x | e] h]; cbn; by rewrite <- app_assoc.
  - intros call Hcall. unfold paced. generalize (@None event).
    induction (trace w) as [| ev tr IH]; intros prev.
    + cbn. rewrite Hcall. reflexivity.
    + cbn. intros [Hev Htr]%andb_true_iff. rewrite Hev. cbn. apply IH, Htr.
Qed.

Lemma paced_requests_witness :
  paced (trace (snd (@request_fastq_from_SRA Stub.provider ["SRR000004"; "SRR000005"]
                       stub_world))) = true.
Proof.
  destruct (@paced_requests Stub.provider stub_world) as (_ & Hrun & _ & _ & Hpaced).
  rewrite (Hrun ["SRR000004"; "SRR000005"]).
  apply Hpaced; reflexivity.
Defined.

(** ** The run table *)

(** C7 as stated fails: a failure of the transport reaches the caller as it
    is, not wrapped and without the accession. *)
Lemma srp_metadata_failure_is_not_wrapped :
  fst (@get_srp_metadata Stub.provider "SRP000002" stub_world)
  = Raise (TransportError "HTTP Error 500")
  /\ ~ (exists cause : exn,
          fst (@get_srp_metadata Stub.provider "SRP000002" stub_world)
          = Raise (FailedSRP "SRP000002" cause)).
Proof.
  split; [reflexivity |]. intros [cause Hcause]. discriminate Hcause.
Qed.

(** C7 (amended): [get_srp_metadata] fails whenever the opening of the URL
    fails or the body is not parseable as delimited text, after the pause;
    the exception it raises is the underlying one, unchanged: nothing wraps
    it or adds the accession. *)
Theorem srp_metadata_failure_propagates `{Provider} (srp_accession : string) (w : world) :
  (forall (e : exn) (n : net),
     urlopen (run_info_url srp_accession) (net_state w) = (Raise e, n) ->
     get_srp_metadata srp_accession w
     = (Raise e,
        {| net_state := n; heap := heap w;
           trace := (trace w ++ [EvSleep (1 # 2)])
                    ++ [EvUrlopen (run_info_url srp_accession)] |}))
  /\ (forall (body : string) (e : exn) (n : net),
        urlopen (run_info_url srp_accession) (net_state w) = (Return body, n) ->
        csv_parse body = Raise e ->
        get_srp_metadata srp_accession w
        = (Raise e,
           {| net_state := n; heap := heap w;
              trace := (trace w ++ [EvSleep (1 # 2)])
                       ++ [EvUrlopen (run_info_url srp_accession)] |})).
Proof.
  split.
  - intros e n Hopen. unfold get_srp_metadata, pd_read_csv. unfold_monad. cbn.
    rewrite Hopen. reflexivity.
  - intros body e n Hopen Hparse. unfold get_srp_metadata, pd_read_csv. unfold_monad. cbn.
    rewrite Hopen. cbn. rewrite Hparse. reflexivity.
Qed.

Lemma srp_metadata_failure_propagates_witness :
  fst (@get_srp_metadata Stub.provider "SRP000002" stub_world)
  = Raise (TransportError "HTTP Error 500")
  /\ fst (@get_srp_metadata Stub.provider "SRP000003" stub_world)
     = Raise CSVParserError.
Proof.
  split.
  - rewrite (proj1 (@srp_metadata_failure_propagates Stub.provider "SRP000002" stub_world)
               (TransportError "HTTP Error 500") 1%nat eq_refl).
    reflexivity.
  - rewrite (proj2 (@srp_metadata_failure_propagates Stub.provider "SRP000003" stub_world)
               "" CSVParserError 1%nat eq_refl eq_refl).
    reflexivity.
Defined.

(** ** Experiment packages *)

Lemma length_filter_tagged (h : store) (name : string) (l : list Element) :
  length (List.filter (has_tag h name) l) = count_tagged h name l.
Proof.
  induction l as [| e l IH]; [reflexivity |].
  cbn. destruct (has_tag h name e); cbn; by rewrite IH.
Qed.

(** A suspended generator yields what is pending, in order, then stops; the
    store comes back as it was. *)
Lemma gen_list_suspended (pending : list Element) (h : store) (fuel : nat) :
  (length pending < fuel)%nat ->
  gen_list fuel (GenSuspended pending) h = Some (Return pending, h).
Proof.
  revert fuel. induction pending as [| e pending IH]; intros fuel Hfuel.
  - destruct fuel as [| fuel]; [cbn in Hfuel; lia | reflexivity].
  - destruct fuel as [| fuel]; [cbn in Hfuel; lia |].
    cbn in Hfuel |- *. rewrite IH by lia. reflexivity.
Qed.

(** C8: on a parsed tree, draining [parse_xml_SRA_runs] gives exactly the
    immediate children of the root whose tag is EXPERIMENT_PACKAGE, in
    document order, as many as the root has such children; the store of
    elements is left as it was, and a second call on the same tree gives the
    same sequence again. *)
Theorem experiment_packages_of_tree
    (h : store) (xml_content : Element) (root : node) (fuel : nat) :
  h !! xml_content = Some root ->
  (count_tagged h "EXPERIMENT_PACKAGE" (children root) < fuel)%nat ->
  let packages := List.filter (has_tag h "EXPERIMENT_PACKAGE") (children root) in
  exists h' : store,
    gen_list fuel (parse_xml_SRA_runs (Some xml_content)) h = Some (Return packages, h')
    /\ h' = h
    /\ length packages = count_tagged h "EXPERIMENT_PACKAGE" (children root)
    /\ gen_list fuel (parse_xml_SRA_runs (Some xml_content)) h'
       = Some (Return packages, h').
Proof.
  intros Hroot Hfuel packages.
  assert (gen_list fuel (parse_xml_SRA_runs (Some xml_content)) h
          = Some (Return packages, h)) as Hlist.
  { rewrite <- length_filter_tagged in Hfuel. fold packages in Hfuel.
    destruct fuel as [| fuel]; [lia |].
    unfold parse_xml_SRA_runs. cbn [gen_list gen_next].
    unfold findall. rewrite Hroot. fold packages.
    destruct packages as [| e pending]; [reflexivity |].
    cbn [gen_resume]. cbn in Hfuel.
    rewrite gen_list_suspended by lia. reflexivity. }
  exists h. repeat split; try exact Hlist.
  apply length_filter_tagged.
Qed.

Lemma experiment_packages_of_tree_witness :
  gen_list 4 (parse_xml_SRA_runs (Some 0%nat)) Stub.packages
  = Some (Return [1; 3; 4]%nat, Stub.packages).
Proof.
  destruct (experiment_packages_of_tree Stub.packages 0%nat
              (mkNode "EXPERIMENT_PACKAGE_SET" [] "" [1; 2; 3; 4]%nat) 4
              eq_refl ltac:(vm_compute; lia))
    as (h' & Hlist & -> & _).
  exact Hlist.
Defined.

(** ** The stubbed requests of the specification *)

Example accession_info_biosample_db :
  trace (snd (@request_accession_info Stub.provider ["SAMN00000001"] "biosample" stub_world))
  = [EvGet (efetch_request
      "https://eutils.ncbi.nlm.nih.gov/entrez/eutils/efetch/fcgi?db=biosample&id=SAMN00000001")].
Proof. reflexivity. Qed.

Example accession_info_experiment_db :
  trace (snd (@request_accession_info Stub.provider ["SRX000001"] "experiment" stub_world))
  = [EvGet (efetch_request
      "https://eutils.ncbi.nlm.nih.gov/entrez/eutils/efetch/fcgi?db=sra&id=SRX000001")].
Proof. reflexivity. Qed.

Example run_ids_are_joined_by_commas :
  trace (snd (@request_fastq_from_SRA Stub.provider ["SRR000004"; "SRR000005"] stub_world))
  = [EvSleep (1 # 2);
     EvGet (efetch_request
       "https://eutils.ncbi.nlm.nih.gov/entrez/eutils/efetch/fcgi?db=sra&id=SRR000004,SRR000005")].
Proof. reflexivity. Qed.

Example run_table_is_returned_as_parsed :
  fst (@get_srp_metadata Stub.provider "SRP000001" stub_world) = Return ["Run,spots"].
Proof. reflexivity. Qed.

Example geo_search_failure_is_wrapped :
  fst (@get_srp_accession_from_geo Stub.provider "GSE1" stub_world)
  = Raise (FailedSRP "GSE1" (TransportError "connection refused")).
Proof. reflexivity. Qed.

Example final_line_feed_is_accepted :
  Re.re_match geo_regex ("GSE1" +:+ String Re.LF "") = true.
Proof. reflexivity. Qed.

Example generator_steps :
  gen_next (parse_xml_SRA_runs (Some 0%nat)) Stub.packages
  = ((Return (Some 1%nat), GenSuspended [3; 4]%nat), Stub.packages)
  /\ gen_next (GenSuspended [3; 4]%nat) Stub.packages
     = ((Return (Some 3%nat), GenSuspended [4]%nat), Stub.packages)
  /\ gen_next (GenSuspended []) Stub.packages
     = ((Return None, GenFinished), Stub.packages)
  /\ gen_next (parse_xml_SRA_runs None) Stub.packages
     = ((Raise (AttributeError "findall"), GenFinished), Stub.packages).
Proof. repeat split. Qed.

(** * Further properties *)

(** ** The test ['SRP' in target] *)



(** ** The comprehensions of lines 48-50 *)

Lemma dict_get_default (d : list (string * json)) (key : string) (default : json) :
  dict_has d key = false -> dict_get d key default = default.
Proof.
  induction d as [| [k v] d IH]; [reflexivity |].
  cbn. destruct (String.eqb k key); [discriminate | exact IH].
Qed.

Lemma dict_get_present (d : list (string * json)) (key : string) (a b : json) :
  dict_has d key = true -> dict_get d key a = dict_get d key b.
Proof.
  induction d as [| [k v] d IH]; [discriminate |].
  cbn. destruct (String.eqb k key); [reflexivity | exact IH].
Qed.

(** One step of the last comprehension, for a relation that is a dict. *)
Lemma srp_targets_dict (d : list (string * json)) (rest : list json) :
  srp_targets (JDict d :: rest)
  = obind (py_str_in "SRP" (dict_get d "targetobject" (JStr ""))) (fun keep =>
      if keep : bool
      then obind (py_getitem (JDict d) "targetobject") (fun v =>
           obind (srp_targets rest) (fun vs => Return (v :: vs)))
      else srp_targets rest).
Proof. reflexivity. Qed.

Lemma srp_targets_kept (extrelations targets : list json) :
  srp_targets extrelations = Return targets ->
  Forall mentions_srp targets /\ (length targets <= length extrelations)%nat.
Proof.
  revert targets. induction extrelations as [| x rest IH]; intros targets.
  - intros [= <-]. split; [constructor | reflexivity].
  - destruct x as [| b | n | s | l | d]; try discriminate.
    rewrite srp_targets_dict.
    destruct (py_str_in "SRP" (dict_get d "targetobject" (JStr ""))) as [[|] | e] eqn:Hin;
      cbn [obind]; [| | discriminate].
    + cbn [py_getitem].
      destruct (dict_has d "targetobject") eqn:Hhas; cbn [obind]; [| discriminate].
      destruct (srp_targets rest) as [vs | e]; cbn [obind]; [| discriminate].
      intros [= <-]. destruct (IH vs eq_refl) as [Hvs Hlen]. split.
      * constructor; [| exact Hvs]. unfold mentions_srp.
        by rewrite (dict_get_present d "targetobject" JNull (JStr "") Hhas).
      * cbn. lia.
    + intros Hrest. destruct (IH targets Hrest) as [Hvs Hlen]. split; [exact Hvs |].
      cbn. lia.
Qed.

(** X2: whatever the relations are, when the last comprehension returns,
    every target it returns passes the SRP test, and there are no more
    targets than relations. *)
Theorem srp_targets_sound (extrelations targets : list json) :
  srp_targets extrelations = Return targets ->
  Forall mentions_srp targets /\ (length targets <= length extrelations)%nat.
Proof. apply srp_targets_kept. Qed.

Lemma srp_targets_sound_witness :
  Forall mentions_srp [JStr "SRP000001"; JStr "ftp://sra/SRP000002"]
  /\ (2 <= 4)%nat.
Proof.
  exact (srp_targets_sound Faulty.relations
           [JStr "SRP000001"; JStr "ftp://sra/SRP000002"] eq_refl).
Defined.

(** X3: the last comprehension works relation by relation: on two lists put
    end to end it gives the targets of the first followed by those of the
    second, and fails as the first of the two that fails. *)
Theorem srp_targets_app (xs ys : list json) :
  srp_targets (xs ++ ys)
  = obind (srp_targets xs) (fun a =>
    obind (srp_targets ys) (fun b => Return (a ++ b))).
Proof.
  induction xs as [| x xs IH].
  - cbn. destruct (srp_targets ys); reflexivity.
  - destruct x as [| b | n | s | l | d]; try reflexivity.
    change ((JDict d :: xs) ++ ys) with (JDict d :: (xs ++ ys)).
    rewrite !srp_targets_dict.
    destruct (py_str_in "SRP" (dict_get d "targetobject" (JStr ""))) as [[|] | e];
      cbn [obind]; [| exact IH | reflexivity].
    destruct (py_getitem (JDict d) "targetobject") as [v | e]; cbn [obind]; [| reflexivity].
    rewrite IH. destruct (srp_targets xs) as [a | e]; cbn [obind]; [| reflexivity].
    destruct (srp_targets ys) as [b | e]; reflexivity.
Qed.

(** X4: a relation that is a dict without the key targetobject is passed
    over and raises nothing; a relation that is not a dict raises
    [AttributeError], whatever comes after it. *)
Theorem srp_targets_odd_relations (x : json) (rest : list json) :
  (forall d, x = JDict d -> dict_has d "targetobject" = false ->
             srp_targets (x :: rest) = srp_targets rest)
  /\ (is_dict x = false -> srp_targets (x :: rest) = Raise (AttributeError "get")).
Proof.
  split.
  - intros d -> Hhas. rewrite srp_targets_dict.
    rewrite (dict_get_default d "targetobject" (JStr "") Hhas). reflexivity.
  - destruct x; try reflexivity. discriminate.
Qed.

Lemma srp_targets_odd_relations_witness :
  srp_targets (JDict [("relationtype", JStr "SRA")] :: Faulty.relations)
  = srp_targets Faulty.relations
  /\ srp_targets (JStr "SRP000001" :: Faulty.relations) = Raise (AttributeError "get").
Proof.
  split.
  - exact (proj1 (srp_targets_odd_relations (JDict [("relationtype", JStr "SRA")])
                    Faulty.relations) _ eq_refl eq_refl).
  - exact (proj2 (srp_targets_odd_relations (JStr "SRP000001") Faulty.relations) eq_refl).
Defined.

Lemma filter_dicts_of_filtered (d : list (string * json)) :
  List.filter is_dict (map snd (List.filter (fun kv => is_dict (snd kv)) d))
  = List.filter is_dict (map snd d).
Proof.
  induction d as [| [k v] d IH]; [reflexivity |].
  cbn. destruct (is_dict v) eqn:Hv; cbn; rewrite ?Hv, IH; reflexivity.
Qed.

(** X5: the entries of [result] that are not dicts (the list under uids,
    for one) take no part: the targets are those of the payload with these
    entries removed. *)
Theorem summary_targets_ignores_non_dicts (payload : json) (d : list (string * json)) :
  py_getitem payload "result" = Return (JDict d) ->
  summary_targets payload
  = summary_targets
      (JDict [("result", JDict (List.filter (fun kv => is_dict (snd kv)) d))]).
Proof.
  intros Hresult. unfold summary_targets. rewrite Hresult.
  cbn [py_getitem dict_has dict_get String.eqb Ascii.eqb Bool.eqb orb obind py_values].
  change (String.eqb "result" "result") with true. cbn match.
  rewrite filter_dicts_of_filtered. reflexivity.
Qed.

Lemma summary_targets_ignores_non_dicts_witness :
  summary_targets Stub.summary_12345
  = summary_targets
      (JDict [("result",
               JDict [("200012345",
                       JDict [("accession", JStr "GSE12345");
                              ("extrelations",
                               JList [JDict [("relationtype", JStr "SRA");
                                             ("targetobject", JStr "SRP000001")];
                                      JDict [("relationtype", JStr "BioProject");
                                             ("targetobject", JStr "PRJNA000001")]])])])]).
Proof.
  exact (summary_targets_ignores_non_dicts Stub.summary_12345 _ eq_refl).
Defined.

Lemma omap_get_of_dicts (key : string) (default : json) (xs : list json) :
  Forall (fun x => is_dict x = true) xs ->
  omap (fun x => py_get x key default) xs
  = Return (map (fun x => match x with
                          | JDict d => dict_get d key default
                          | _ => default
                          end) xs).
Proof.
  induction 1 as [| x xs Hx _ IH]; [reflexivity |].
  destruct x; try discriminate. cbn. rewrite IH. reflexivity.
Qed.

Lemma omap_iter_of_none (rels : list json) :
  In JNull rels -> omap py_iter rels = Raise TypeError.
Proof.
  induction rels as [| x rels IH]; [intros [] |].
  intros [-> | Hin]; [reflexivity |].
  cbn. destruct x; cbn; try reflexivity; rewrite (IH Hin); reflexivity.
Qed.

(** X6: when one record of [result] has no extrelations key, [get] gives
    [None] for it, iterating [None] fails, and the whole computation raises
    [TypeError], whatever the other records hold. *)
Theorem summary_targets_missing_extrelations
    (payload : json) (d record : list (string * json)) (uid : string) :
  py_getitem payload "result" = Return (JDict d) ->
  In (uid, JDict record) d ->
  dict_has record "extrelations" = false ->
  summary_targets payload = Raise TypeError.
Proof.
  intros Hresult Hin Hhas. unfold summary_targets. rewrite Hresult.
  cbn [obind py_values].
  rewrite omap_get_of_dicts.
  2: { apply List.Forall_forall. intros x Hx. apply List.filter_In in Hx. tauto. }
  cbn [obind]. rewrite omap_iter_of_none; [reflexivity |].
  apply List.in_map_iff. exists (JDict record). split.
  - apply dict_get_default, Hhas.
  - apply List.filter_In. split; [| reflexivity].
    apply List.in_map_iff. exists (uid, JDict record). split; [reflexivity | exact Hin].
Qed.

Lemma summary_targets_missing_extrelations_witness :
  summary_targets Faulty.summary_without_relations = Raise TypeError.
Proof.
  apply (summary_targets_missing_extrelations Faulty.summary_without_relations
           _ [("accession", JStr "GSE2")] "2" eq_refl).
  - right. right. left. reflexivity.
  - reflexivity.
Defined.

(** ** What a call of [get_srp_accession_from_geo] can give *)

Lemma summary_targets_sound (payload : json) (targets : list json) :
  summary_targets payload = Return targets -> Forall mentions_srp targets.
Proof.
  unfold summary_targets.
  destruct (py_getitem payload "result") as [res | e]; [| discriminate].
  cbn [obind]. destruct (py_values res) as [vals | e]; [| discriminate].
  cbn [obind]. destruct (omap _ _) as [rels | e]; [| discriminate].
  cbn [obind]. destruct (omap py_iter rels) as [nested | e]; [| discriminate].
  cbn [obind]. intros Htargets. apply (srp_targets_kept _ _ Htargets).
Qed.

Lemma summary_step_sound `{Provider} (summary_id : json) (w w' : world)
    (targets : list json) :
  summary_step summary_id w = (Return (Some targets), w') ->
  Forall mentions_srp targets.
Proof.
  unfold summary_step. unfold_monad.
  destruct (http_get _ _) as [[r | e] n]; [| discriminate].
  destruct (_ && _); [discriminate |].
  destruct (json_loads _) as [payload | e]; [| discriminate].
  destruct (summary_targets payload) as [ts | e] eqn:Hts; [| discriminate].
  intros [= <- _]. apply (summary_targets_sound _ _ Hts).
Qed.

Lemma for_each_summary_sound `{Provider} (ids : list json) (w w' : world)
    (targets : list json) :
  for_each ids summary_step w = (Return (Some targets), w') ->
  Forall mentions_srp targets.
Proof.
  revert w. induction ids as [| summary_id ids IH]; intros w.
  - discriminate.
  - cbn [for_each]. unfold bind.
    destruct (summary_step summary_id w) as [[[ts |] | e] w1] eqn:Hstep.
    + intros [= <- _]. apply (summary_step_sound _ _ _ _ Hstep).
    + apply IH.
    + discriminate.
Qed.

Lemma srp_lookup_sound `{Provider} (geo_accession : string) (w w' : world)
    (targets : list json) :
  srp_lookup geo_accession w = (Return (Some targets), w') ->
  Forall mentions_srp targets.
Proof.
  unfold srp_lookup. unfold bind at 1.
  destruct (requests_get _ _ w) as [[r | e] w1]; [| discriminate].
  unfold bind at 1.
  destruct (raise_for_status r w1) as [[[] | e] w2]; [| discriminate].
  unfold bind at 1.
  destruct (response_json r w2) as [[payload | e] w3]; [| discriminate].
  unfold bind at 1.
  destruct (lift _ w3) as [[idlist | e] w4]; [| discriminate].
  unfold bind at 1.
  destruct (lift _ w4) as [[ids | e] w5]; [| discriminate].
  apply for_each_summary_sound.
Qed.

(** X7: a call ends in one of four ways.  It raises [AssertionError] when
    the accession does not match the pattern; otherwise it raises the
    wrapping exception that names the accession (never a bare one), or
    returns [None], or returns targets every one of which passes the SRP
    test. *)
Theorem geo_outcomes `{Provider} (geo_accession : string) (w : world) :
  match fst (get_srp_accession_from_geo geo_accession w) with
  | Raise e =>
      (Re.re_match geo_regex geo_accession = false
       /\ e = AssertionError (geo_accession +:+ " is not a valid GEO accession"))
      \/ (Re.re_match geo_regex geo_accession = true
          /\ exists cause, e = FailedSRP geo_accession cause)
  | Return None => Re.re_match geo_regex geo_accession = true
  | Return (Some targets) =>
      Re.re_match geo_regex geo_accession = true /\ Forall mentions_srp targets
  end.
Proof.
  unfold get_srp_accession_from_geo.
  destruct (Re.re_match geo_regex geo_accession) eqn:Hre; cbn [negb].
  - unfold try_except, raise.
    destruct (srp_lookup geo_accession w) as [[[targets |] | e] w'] eqn:Hlookup; cbn.
    + split; [reflexivity |]. apply (srp_lookup_sound _ _ _ _ Hlookup).
    + reflexivity.
    + right. eauto.
  - cbn. left. split; reflexivity.
Qed.

Lemma srp_lookup_requests `{Provider} (geo_accession : string) (w : world) :
  exists tr,
    trace (snd (srp_lookup geo_accession w)) = trace w ++ tr
    /\ geo_requests geo_accession tr.
Proof.
  unfold srp_lookup. unfold_monad. fold (esearch_request geo_accession).
  destruct (http_get _ _) as [[r | e] n]; [| eexists; split; [reflexivity | constructor]].
  destruct (_ && _); [eexists; split; [reflexivity | constructor] |].
  destruct (json_loads _) as [payload | e];
    [| eexists; split; [reflexivity | constructor]].
  destruct (obind _ _) as [idlist | e];
    [| eexists; split; [reflexivity | constructor]].
  destruct (py_iter idlist) as [[| summary_id ids] | e];
    try (eexists; split; [reflexivity | constructor]).
  cbn [for_each]. unfold bind.
  match goal with
  | |- context [summary_step summary_id ?w1] =>
      pose proof (summary_step_trace summary_id w1) as Htr;
      destruct (summary_step summary_id w1) as [[[targets |] | e] w2] eqn:Hstep
  end; cbn in Htr.
  - exists [EvGet (esearch_request geo_accession); EvGet (esummary_request summary_id)].
    cbn. rewrite Htr, <- app_assoc. split; [reflexivity | constructor].
  - apply summary_step_returns in Hstep as [? [=]].
  - exists [EvGet (esearch_request geo_accession); EvGet (esummary_request summary_id)].
    cbn. rewrite Htr, <- app_assoc. split; [reflexivity | constructor].
Qed.

(** X8: whatever the provider answers and however many ids the search
    gives, a call adds to the log no request, the search request alone, or
    the search request and one summary request; it never pauses. *)
Theorem geo_at_most_two_requests `{Provider} (geo_accession : string) (w : world) :
  exists tr,
    trace (snd (get_srp_accession_from_geo geo_accession w)) = trace w ++ tr
    /\ geo_requests geo_accession tr.
Proof.
  unfold get_srp_accession_from_geo.
  destruct (Re.re_match geo_regex geo_accession); cbn [negb].
  - destruct (srp_lookup_requests geo_accession w) as (tr & Htr & Hshape).
    exists tr. split; [| exact Hshape].
    unfold try_except, raise.
    destruct (srp_lookup geo_accession w) as [[o | e] w']; exact Htr.
  - exists []. cbn. rewrite app_nil_r. split; [reflexivity | constructor].
Qed.

(** ** Failures of the search and of the summary *)

Ltac geo_run Hre :=
  unfold get_srp_accession_from_geo; rewrite Hre; cbn [negb];
  unfold srp_lookup, esearch_request in *; unfold_monad.

(** X9: with a valid accession, a failure of the search request reaches the
    caller wrapped with the accession and its cause, after that one request:
    an exception of the transport, a 4xx or 5xx status (400 included, as
    [HTTPError]), or a body that is not JSON. *)
Theorem geo_search_failure_wraps_cause `{Provider} (geo_accession : string) (w : world) :
  Re.re_match geo_regex geo_accession = true ->
  (forall (e : exn) (n : net),
     http_get (esearch_request geo_accession) (net_state w) = (Raise e, n) ->
     get_srp_accession_from_geo geo_accession w
     = (Raise (FailedSRP geo_accession e),
        {| net_state := n; heap := heap w;
           trace := trace w ++ [EvGet (esearch_request geo_accession)] |}))
  /\ (forall (r : response) (n : net),
        http_get (esearch_request geo_accession) (net_state w) = (Return r, n) ->
        status_ok r = false ->
        get_srp_accession_from_geo geo_accession w
        = (Raise (FailedSRP geo_accession (HTTPError (status_code r))),
           {| net_state := n; heap := heap w;
              trace := trace w ++ [EvGet (esearch_request geo_accession)] |}))
  /\ (forall (r : response) (n : net) (e : exn),
        http_get (esearch_request geo_accession) (net_state w) = (Return r, n) ->
        status_ok r = true ->
        json_loads (content r) = Raise e ->
        get_srp_accession_from_geo geo_accession w
        = (Raise (FailedSRP geo_accession e),
           {| net_state := n; heap := heap w;
              trace := trace w ++ [EvGet (esearch_request geo_accession)] |})).
Proof.
  intros Hre. split; [| split].
  - intros e n Hget. geo_run Hre. rewrite Hget. reflexivity.
  - intros r n Hget Hok. apply negb_false_iff in Hok.
    geo_run Hre. rewrite Hget, Hok. reflexivity.
  - intros r n e Hget Hok%status_ok_false Hjson.
    geo_run Hre. rewrite Hget, Hok. cbn. rewrite Hjson. reflexivity.
Qed.

Lemma geo_search_failure_wraps_cause_witness :
  fst (@get_srp_accession_from_geo Faulty.provider "GSE1" Faulty.world0)
  = Raise (FailedSRP "GSE1" (TransportError "connection refused"))
  /\ fst (@get_srp_accession_from_geo Faulty.provider "GSE50000" Faulty.world0)
     = Raise (FailedSRP "GSE50000" (HTTPError 503))
  /\ fst (@get_srp_accession_from_geo Faulty.provider "GSE40000" Faulty.world0)
     = Raise (FailedSRP "GSE40000" JSONDecodeError).
Proof.
  split; [| split].
  - rewrite (proj1 (@geo_search_failure_wraps_cause Faulty.provider "GSE1" Faulty.world0
                      eq_refl) (TransportError "connection refused") 1%nat eq_refl).
    reflexivity.
  - rewrite (proj1 (proj2 (@geo_search_failure_wraps_cause Faulty.provider "GSE50000"
                             Faulty.world0 eq_refl))
               (mkResponse 503 "busy") 1%nat eq_refl eq_refl).
    reflexivity.
  - rewrite (proj2 (proj2 (@geo_search_failure_wraps_cause Faulty.provider "GSE40000"
                             Faulty.world0 eq_refl))
               (mkResponse 200 "<html>") 1%nat JSONDecodeError eq_refl eq_refl eq_refl).
    reflexivity.
Defined.

(** X10: a search answer of the wrong shape also ends in the wrapping
    exception, after the search request alone: [KeyError] when the answer is
    a dict without the key esearchresult or its esearchresult is a dict
    without the key idlist, [TypeError] when the answer is not a dict or the
    id list cannot be iterated. *)
Theorem geo_search_shape_failure `{Provider}
    (geo_accession : string) (w : world) (r : response) (n : net) (payload : json) :
  Re.re_match geo_regex geo_accession = true ->
  http_get (esearch_request geo_accession) (net_state w) = (Return r, n) ->
  status_ok r = true ->
  json_loads (content r) = Return payload ->
  let failed e :=
    get_srp_accession_from_geo geo_accession w
    = (Raise (FailedSRP geo_accession e),
       {| net_state := n; heap := heap w;
          trace := trace w ++ [EvGet (esearch_request geo_accession)] |}) in
  (is_dict payload = false -> failed TypeError)
  /\ (forall d, payload = JDict d -> dict_has d "esearchresult" = false ->
                failed (KeyError "esearchresult"))
  /\ (forall d, py_getitem payload "esearchresult" = Return (JDict d) ->
                dict_has d "idlist" = false -> failed (KeyError "idlist"))
  /\ (forall er idlist e,
        py_getitem payload "esearchresult" = Return er ->
        py_getitem er "idlist" = Return idlist ->
        py_iter idlist = Raise e -> failed e /\ e = TypeError).
Proof.
  intros Hre Hget Hok%status_ok_false Hjson failed. subst failed. cbn beta.
  split; [| split; [| split]].
  - intros Hnd. geo_run Hre. rewrite Hget, Hok. cbn. rewrite Hjson.
    destruct payload; try discriminate; reflexivity.
  - intros d -> Hhas. geo_run Hre. rewrite Hget, Hok. cbn. rewrite Hjson.
    cbn [py_getitem]. rewrite Hhas. reflexivity.
  - intros d Her Hhas. geo_run Hre. rewrite Hget, Hok. cbn. rewrite Hjson, Her.
    cbn [obind py_getitem]. rewrite Hhas. reflexivity.
  - intros er idlist e Her Hidlist Hiter. split.
    + geo_run Hre. rewrite Hget, Hok. cbn. rewrite Hjson, Her. cbn [obind].
      rewrite Hidlist, Hiter. reflexivity.
    + destruct idlist; cbn in Hiter; congruence.
Qed.

Lemma geo_search_shape_failure_witness :
  fst (@get_srp_accession_from_geo Faulty.provider "GSE30000" Faulty.world0)
  = Raise (FailedSRP "GSE30000" (KeyError "esearchresult"))
  /\ fst (@get_srp_accession_from_geo Faulty.provider "GSE30001" Faulty.world0)
     = Raise (FailedSRP "GSE30001" (KeyError "idlist"))
  /\ fst (@get_srp_accession_from_geo Faulty.provider "GSE30002" Faulty.world0)
     = Raise (FailedSRP "GSE30002" TypeError).
Proof.
  split; [| split].
  - rewrite (proj1 (proj2 (@geo_search_shape_failure Faulty.provider "GSE30000"
                Faulty.world0 (mkResponse 200 "no-result") 1%nat
                (JDict [("error", JStr "temporarily unavailable")])
                eq_refl eq_refl eq_refl eq_refl)) _ eq_refl eq_refl).
    reflexivity.
  - rewrite (proj1 (proj2 (proj2 (@geo_search_shape_failure Faulty.provider "GSE30001"
                Faulty.world0 (mkResponse 200 "no-idlist") 1%nat
                (JDict [("esearchresult", JDict [("count", JStr "0")])])
                eq_refl eq_refl eq_refl eq_refl))) _ eq_refl eq_refl).
    reflexivity.
  - rewrite (proj1 (proj2 (proj2 (proj2 (@geo_search_shape_failure Faulty.provider
                "GSE30002" Faulty.world0 (mkResponse 200 "null-idlist") 1%nat
                (JDict [("esearchresult", JDict [("idlist", JNull)])])
                eq_refl eq_refl eq_refl eq_refl))) _ JNull TypeError
                eq_refl eq_refl eq_refl)).
    reflexivity.
Defined.

(** X11: when the summary request for the first id fails (an exception of
    the transport, or a 4xx or 5xx status), the call fails with the wrapped
    cause after two requests, although further ids remain: no other id is
    tried. *)
Theorem geo_first_summary_failure_is_final `{Provider}
    (geo_accession : string) (w : world) (r : response) (n : net)
    (payload er : json) (summary_id : json) (remaining : list json) :
  Re.re_match geo_regex geo_accession = true ->
  http_get (esearch_request geo_accession) (net_state w) = (Return r, n) ->
  status_ok r = true ->
  json_loads (content r) = Return payload ->
  py_getitem payload "esearchresult" = Return er ->
  py_getitem er "idlist" = Return (JList (summary_id :: remaining)) ->
  let failed e n2 :=
    get_srp_accession_from_geo geo_accession w
    = (Raise (FailedSRP geo_accession e),
       {| net_state := n2; heap := heap w;
          trace := (trace w ++ [EvGet (esearch_request geo_accession)])
                   ++ [EvGet (esummary_request summary_id)] |}) in
  (forall e n2,
     http_get (esummary_request summary_id) n = (Raise e, n2) -> failed e n2)
  /\ (forall r2 n2,
        http_get (esummary_request summary_id) n = (Return r2, n2) ->
        status_ok r2 = false -> failed (HTTPError (status_code r2)) n2).
Proof.
  intros Hre Hget Hok Hjson Her Hidlist failed. subst failed. cbn beta.
  assert (get_srp_accession_from_geo geo_accession w
          = try_except (for_each (summary_id :: remaining) summary_step)
              (fun e => raise (FailedSRP geo_accession e))
              {| net_state := n; heap := heap w;
                 trace := trace w ++ [EvGet (esearch_request geo_accession)] |}) as Hloop.
  { unfold get_srp_accession_from_geo. rewrite Hre. cbn [negb].
    unfold try_except at 1.
    rewrite (srp_lookup_ids geo_accession w r n payload er _ _
               Hget Hok Hjson Her Hidlist eq_refl).
    reflexivity. }
  rewrite Hloop. clear Hloop. cbn [for_each].
  split.
  - intros e n2 Hget2. unfold summary_step, esummary_request in *. unfold_monad.
    cbn [net_state]. rewrite Hget2. reflexivity.
  - intros r2 n2 Hget2 Hok2. apply negb_false_iff in Hok2.
    unfold summary_step, esummary_request in *. unfold_monad.
    cbn [net_state]. rewrite Hget2, Hok2. reflexivity.
Qed.

Lemma geo_first_summary_failure_is_final_witness :
  fst (@get_srp_accession_from_geo Faulty.provider "GSE20000" Faulty.world0)
  = Raise (FailedSRP "GSE20000" (HTTPError 429)).
Proof.
  rewrite (proj2 (@geo_first_summary_failure_is_final Faulty.provider "GSE20000"
             Faulty.world0 (mkResponse 200 "two-hits") 1%nat
             (JDict [("esearchresult",
                      JDict [("idlist", JList [JStr "200020000"; JStr "200020001"])])])
             (JDict [("idlist", JList [JStr "200020000"; JStr "200020001"])])
             (JStr "200020000") [JStr "200020001"]
             eq_refl eq_refl eq_refl eq_refl eq_refl eq_refl)
           (mkResponse 429 "slow down") 2%nat eq_refl eq_refl).
  reflexivity.
Defined.

(** ** More on the efetch requests *)

(** X12: an exception raised by the transport itself passes through every
    efetch function unchanged; the [try] of [request_fastq_from_SRA] covers
    the parsing only, so there too the exception is not turned into [None]. *)
Theorem efetch_transport_failure_propagates `{Provider} (e : exn) (w : world) (n : net) :
  (forall srr_accessions : list string,
     http_get (efetch_request (efetch_sra_url (join "," srr_accessions))) (net_state w)
     = (Raise e, n) ->
     request_fastq_from_SRA srr_accessions w
     = (Raise e,
        {| net_state := n; heap := heap w;
           trace := (trace w ++ [EvSleep (1 # 2)])
                    ++ [EvGet (efetch_request (efetch_sra_url (join "," srr_accessions)))] |}))
  /\ (forall accessions : list string,
        http_get (efetch_request (efetch_biosample_url (join "," accessions))) (net_state w)
        = (Raise e, n) ->
        request_accession_info accessions "biosample" w
        = (Raise e,
           {| net_state := n; heap := heap w;
              trace := trace w
                       ++ [EvGet (efetch_request (efetch_biosample_url (join "," accessions)))] |}))
  /\ (forall accessions : list string,
        http_get (efetch_request (efetch_sra_url (join "," accessions))) (net_state w)
        = (Raise e, n) ->
        request_accession_info accessions "experiment" w
        = (Raise e,
           {| net_state := n; heap := heap w;
              trace := trace w
                       ++ [EvGet (efetch_request (efetch_sra_url (join "," accessions)))] |}))
  /\ (forall bioproject_accession : string,
        http_get (efetch_request (efetch_bioproject_url bioproject_accession)) (net_state w)
        = (Raise e, n) ->
        request_bioproject_metadata bioproject_accession w
        = (Raise e,
           {| net_state := n; heap := heap w;
              trace := (trace w ++ [EvSleep (1 # 2)])
                       ++ [EvGet (efetch_request (efetch_bioproject_url bioproject_accession))] |}))
  /\ (forall project_pubmed_id : string,
        http_get (efetch_request (efetch_pubmed_url project_pubmed_id)) (net_state w)
        = (Raise e, n) ->
        request_pubmed_metadata project_pubmed_id w
        = (Raise e,
           {| net_state := n; heap := heap w;
              trace := (trace w ++ [EvSleep (1 # 2)])
                       ++ [EvGet (efetch_request (efetch_pubmed_url project_pubmed_id))] |})).
Proof.
  repeat split; intros a Hget;
    unfold request_fastq_from_SRA, request_accession_info,
      request_bioproject_metadata, request_pubmed_metadata, efetch_request in *;
    unfold_monad; cbn in *; rewrite Hget; reflexivity.
Qed.

Lemma efetch_transport_failure_propagates_witness :
  fst (@request_fastq_from_SRA Stub.provider ["SRR999999"] stub_world)
  = Raise (TransportError "connection refused")
  /\ fst (@request_pubmed_metadata Stub.provider "1" stub_world)
     = Raise (TransportError "connection refused").
Proof.
  destruct (@efetch_transport_failure_propagates Stub.provider
              (TransportError "connection refused") stub_world 1%nat)
    as (Hrun & _ & _ & _ & Hpubmed).
  split.
  - rewrite (Hrun ["SRR999999"] eq_refl). reflexivity.
  - rewrite (Hpubmed "1" eq_refl). reflexivity.
Defined.

(** X13: [request_fastq_from_SRA] is [request_accession_info] for
    experiments run after the pause, on the same request, with one
    difference: when the provider answers with a status other than 400, an
    exception of the parser becomes the result [None]. *)
Theorem fastq_is_paused_experiment_request `{Provider}
    (accessions : list string) (w : world) (r : response) (n : net) :
  http_get (efetch_request (efetch_sra_url (join "," accessions))) (net_state w)
  = (Return r, n) ->
  request_fastq_from_SRA accessions w
  = (match fst (request_accession_info accessions "experiment" (log (EvSleep (1 # 2)) w)) with
     | Return x => Return (Some x)
     | Raise e => if status_code r =? STATUS_ERROR_CODE then Raise e else Return None
     end,
     snd (request_accession_info accessions "experiment" (log (EvSleep (1 # 2)) w))).
Proof.
  intros Hget.
  unfold request_fastq_from_SRA, request_accession_info, efetch_request in *.
  unfold_monad. cbn in *. rewrite Hget.
  destruct (status_code r =? STATUS_ERROR_CODE) eqn:Hstatus; cbn; [reflexivity |].
  destruct (fromstring (content r) (heap w)) as [[x | e] h]; reflexivity.
Qed.

Lemma fastq_is_paused_experiment_request_witness :
  fst (@request_fastq_from_SRA Stub.provider ["SRX000002"] stub_world) = Return None
  /\ fst (@request_fastq_from_SRA Stub.provider ["SRX000001"] stub_world)
     = Raise (NotFoundSRA not_found_response (AccList ["SRX000001"])).
Proof.
  split.
  - rewrite (@fastq_is_paused_experiment_request Stub.provider ["SRX000002"] stub_world
               (mkResponse 200 "") 1%nat eq_refl).
    reflexivity.
  - rewrite (@fastq_is_paused_experiment_request Stub.provider ["SRX000001"] stub_world
               not_found_response 1%nat eq_refl).
    reflexivity.
Defined.

(** ** More on the generator *)

(** X14: the generator works on the list [findall] gave at the first
    [next]: once it has yielded its first package, what it yields afterwards
    is the rest of that list, whatever becomes of the store in between. *)
Theorem generator_iterates_a_snapshot
    (h : store) (xml_content : Element) (root : node)
    (first : Element) (others : list Element) :
  h !! xml_content = Some root ->
  List.filter (has_tag h "EXPERIMENT_PACKAGE") (children root) = first :: others ->
  exists g : generator,
    gen_next (parse_xml_SRA_runs (Some xml_content)) h = ((Return (Some first), g), h)
    /\ forall (h2 : store) (fuel : nat),
         (length others < fuel)%nat ->
         gen_list fuel g h2 = Some (Return others, h2).
Proof.
  intros Hroot Hpackages. exists (GenSuspended others). split.
  - unfold parse_xml_SRA_runs. cbn [gen_next]. unfold findall.
    rewrite Hroot, Hpackages. reflexivity.
  - intros h2 fuel Hfuel. apply gen_list_suspended, Hfuel.
Qed.

Lemma generator_iterates_a_snapshot_witness :
  exists g : generator,
    gen_next (parse_xml_SRA_runs (Some 0%nat)) Stub.packages
    = ((Return (Some 1%nat), g), Stub.packages)
    /\ forall (h2 : store) (fuel : nat),
         (length [3; 4]%nat < fuel)%nat ->
         gen_list fuel g h2 = Some (Return [3; 4]%nat, h2).
Proof.
  exact (generator_iterates_a_snapshot Stub.packages 0%nat
           (mkNode "EXPERIMENT_PACKAGE_SET" [] "" [1; 2; 3; 4]%nat) 1%nat [3; 4]%nat
           eq_refl eq_refl).
Defined.
